(** * fireorm: AbstractFirestoreRepository

    A shallow embedding of [src/AbstractFirestoreRepository.ts]: repository
    construction against the metadata storage, hydration of document
    snapshots into entities ([transformFirestoreTypes],
    [initializeSubCollections], [extractTFromDocSnap]), the query-builder
    entry points and [validate].

    Conventions.  A JavaScript exception is a [Throw] in [Result]; code that
    allocates objects or talks to the metadata storage runs in the monad [M]
    over a [World].  The TypeScript type [number] is embedded as [Z]. *)

From Stdlib Require Import List String Ascii ZArith Lia Bool DecimalString.
Import ListNotations.
Open Scope string_scope.
Set Warnings "-register-all".

(** ** Exceptions *)

(** A thrown error object: the name of its class, its message and the
    optional [code] member Node attaches to module-resolution failures. *)
Record JsError : Type := mkJsError {
  ename : string;
  message : string;
  code : option string
}.

(** [new Error(msg)] *)
Definition newError (msg : string) : JsError :=
  {| ename := "Error"; message := msg; code := None |}.

(** The TypeError the engine raises on a bad member access or call. *)
Definition newTypeError (msg : string) : JsError :=
  {| ename := "TypeError"; message := msg; code := None |}.

Inductive Result (A : Type) : Type :=
| Ok (a : A)
| Throw (e : JsError).
Arguments Ok {A} a.
Arguments Throw {A} e.

Class Monad (m : Type -> Type) : Type := {
  ret : forall {A : Type}, A -> m A;
  bind : forall {A B : Type}, m A -> (A -> m B) -> m B
}.

Notation "x <- c ;; k" := (bind c (fun x => k))
  (at level 61, c at next level, right associativity).
Notation "c ;;; k" := (bind c (fun _ => k))
  (at level 61, right associativity).

#[global] Instance Result_Monad : Monad Result := {
  ret := @Ok;
  bind := fun A B (c : Result A) (k : A -> Result B) =>
            match c with
            | Ok a => k a
            | Throw e => Throw e
            end
}.

(** ** JavaScript values *)

(** The values a document snapshot can hand to the repository.  An object
    is given by its own enumerable properties (what [Object.keys] lists, in
    order) and by the members it has besides those: what the prototype chain
    and accessors make readable, each with the value a read yields.  A
    function is given by its [name] and by what a call without arguments
    returns.  Arrays are objects keyed by their indices. *)
Inductive Value : Type :=
| VUndefined
| VNull
| VBool (b : bool)
| VNum (n : Z)
| VStr (s : string)
| VDate (millis : Z)
| VFun (fname : string) (ret : Value)
| VObj (own : list (string * Value)) (proto : list (string * Value)).

Fixpoint lookup {A : Type} (k : string) (kvs : list (string * A)) : option A :=
  match kvs with
  | [] => None
  | (k', v) :: rest => if String.eqb k k' then Some v else lookup k rest
  end.

Definition keys {A : Type} (kvs : list (string * A)) : list string :=
  map fst kvs.

(** What every object literal inherits, as far as the code here looks. *)
Definition ObjectPrototype : list (string * Value) :=
  [("constructor", VFun "Object" VUndefined)].

(** An object literal [{k1: v1, ...}]. *)
Definition plain (fields : list (string * Value)) : Value :=
  VObj fields ObjectPrototype.

(** [typeof v] *)
Definition typeof (v : Value) : string :=
  match v with
  | VUndefined => "undefined"
  | VNull => "object"
  | VBool _ => "boolean"
  | VNum _ => "number"
  | VStr _ => "string"
  | VDate _ => "object"
  | VFun _ _ => "function"
  | VObj _ _ => "object"
  end.

(** ToBoolean: what [!v] negates. *)
Definition truthy (v : Value) : bool :=
  match v with
  | VUndefined | VNull => false
  | VBool b => b
  | VNum n => negb (n =? 0)%Z
  | VStr s => negb (String.eqb s "")
  | VDate _ | VFun _ _ | VObj _ _ => true
  end.

(** [k in v], for [v] an object. *)
Definition hasProperty (k : string) (v : Value) : bool :=
  match v with
  | VObj own proto =>
      match lookup k own, lookup k proto with
      | None, None => false
      | _, _ => true
      end
  | VDate _ => String.eqb k "constructor"
  | VFun _ _ => String.eqb k "constructor" || String.eqb k "name"
  | _ => false
  end.

(** The member read [v.k].  Reading a member of [undefined] or [null]
    throws; primitives answer through their wrapper class. *)
Definition getProp (v : Value) (k : string) : Result Value :=
  match v with
  | VUndefined | VNull =>
      Throw (newTypeError ("Cannot read properties of " ++
                           (match v with VNull => "null" | _ => "undefined" end) ++
                           " (reading '" ++ k ++ "')"))
  | VObj own proto =>
      match lookup k own with
      | Some x => Ok x
      | None => match lookup k proto with
                | Some x => Ok x
                | None => Ok VUndefined
                end
      end
  | VFun fname _ =>
      if String.eqb k "name" then Ok (VStr fname)
      else if String.eqb k "constructor" then Ok (VFun "Function" VUndefined)
      else Ok VUndefined
  | VBool _ => if String.eqb k "constructor" then Ok (VFun "Boolean" VUndefined) else Ok VUndefined
  | VNum _ => if String.eqb k "constructor" then Ok (VFun "Number" VUndefined) else Ok VUndefined
  | VStr _ => if String.eqb k "constructor" then Ok (VFun "String" VUndefined) else Ok VUndefined
  | VDate _ => if String.eqb k "constructor" then Ok (VFun "Date" VUndefined) else Ok VUndefined
  end.

(** The method call [v.k()]. *)
Definition callMethod (v : Value) (k : string) : Result Value :=
  f <- getProp v k ;;
  match f with
  | VFun _ r => Ok r
  | _ => Throw (newTypeError ("obj[key]." ++ k ++ " is not a function"))
  end.

(** [v === s] for a string literal [s]. *)
Definition strictEqStr (v : Value) (s : string) : bool :=
  match v with
  | VStr s' => String.eqb s' s
  | _ => false
  end.

(** ** transformFirestoreTypes *)

(** The body of the [forEach] callback: the value [obj[key]] holds once the
    callback has run on a key whose value was [v].  [recur] is the recursive
    call [this.transformFirestoreTypes]. *)
Definition transformField (recur : Value -> Result Value) (v : Value) : Result Value :=
  if negb (truthy v) then Ok v
  else if String.eqb (typeof v) "object" && hasProperty "toDate" v then
    callMethod v "toDate"
  else
    c <- getProp v "constructor" ;;
    n <- getProp c "name" ;;
    if strictEqStr n "GeoPoint" then
      latitude <- getProp v "latitude" ;;
      longitude <- getProp v "longitude" ;;
      Ok (plain [("latitude", latitude); ("longitude", longitude)])
    else if strictEqStr n "DocumentReference" then
      id <- getProp v "id" ;;
      path <- getProp v "path" ;;
      Ok (plain [("id", id); ("path", path)])
    else if String.eqb (typeof v) "object" then recur v
    else Ok v.

(** [Object.keys(obj).forEach(...)] over the own properties, left to right;
    the first exception ends the walk. *)
Fixpoint forEachKey (f : Value -> Result Value) (kvs : list (string * Value))
  : Result (list (string * Value)) :=
  match kvs with
  | [] => Ok []
  | (key, v) :: rest =>
      v' <- f v ;;
      rest' <- forEachKey f rest ;;
      Ok ((key, v') :: rest')
  end.

(** The object is updated in place and returned; the updated object is the
    result here.  [Object.keys] throws on [undefined] and [null], and lists
    nothing the callback would change for the other values that are no
    objects. *)
Fixpoint transformFirestoreTypes (obj : Value) : Result Value :=
  match obj with
  | VObj own proto =>
      own' <- (fix walk (kvs : list (string * Value)) : Result (list (string * Value)) :=
                  match kvs with
                  | [] => Ok []
                  | (key, v) :: rest =>
                      v' <- transformField transformFirestoreTypes v ;;
                      rest' <- walk rest ;;
                      Ok ((key, v') :: rest')
                  end) own ;;
       Ok (VObj own' proto)
  | VUndefined | VNull =>
      Throw (newTypeError "Cannot convert undefined or null to object")
  | _ => Ok obj
  end.

(** ** Object literals with spread, and [Object.assign] *)

(** [o[k] = v] on a property list: an existing key keeps its place. *)
Fixpoint setProp {A : Type} (k : string) (v : A) (kvs : list (string * A))
  : list (string * A) :=
  match kvs with
  | [] => [(k, v)]
  | (k', v') :: rest =>
      if String.eqb k k' then (k, v) :: rest else (k', v') :: setProp k v rest
  end.

(** [Object.assign(target, source)], also the spread [{...target, ...source}]:
    the own properties of [source] are written onto [target] in order. *)
Definition objectAssign {A : Type} (target source : list (string * A))
  : list (string * A) :=
  fold_left (fun acc kv => setProp (fst kv) (snd kv) acc) source target.

(** The decimal rendering of an integer, as a template literal prints it. *)
Definition showZ (n : Z) : string := NilZero.string_of_int (Z.to_int n).

Fixpoint indexedChars (i : nat) (s : string) : list (string * Value) :=
  match s with
  | EmptyString => []
  | String c rest =>
      (showZ (Z.of_nat i), VStr (String c EmptyString)) :: indexedChars (S i) rest
  end.

Fixpoint indexedElements (i : nat) (elems : list Value) : list (string * Value) :=
  match elems with
  | [] => []
  | v :: rest => (showZ (Z.of_nat i), v) :: indexedElements (S i) rest
  end.

(** An array literal [[v0, v1, ...]]: the elements under their indices;
    [length] is not enumerable. *)
Definition array (elems : list Value) : Value :=
  VObj (indexedElements 0 elems)
       [("constructor", VFun "Array" VUndefined);
        ("length", VNum (Z.of_nat (List.length elems)))].

(** The own enumerable properties a spread [...v] copies. *)
Definition ownProperties (v : Value) : list (string * Value) :=
  match v with
  | VObj own _ => own
  | VStr s => indexedChars 0 s
  | _ => []
  end.

(** ** Metadata *)

(** A class object: its identity and its [name]. *)
Record EntityConstructor : Type := {
  ctor_ident : nat;
  ctor_name : string
}.

Record SubCollectionMetadata : Type := {
  subCol_name : string;
  subCol_entityConstructor : EntityConstructor;
  parentEntityConstructor : EntityConstructor;
  propertyKey : string
}.

Record FullCollectionMetadata : Type := {
  name : string;
  entityConstructor : EntityConstructor;
  subCollections : list SubCollectionMetadata
}.

(** Modelled from the spec: [MetadataStorageConfig] is declared in
    MetadataStorage.ts, which is not part of the sources at hand; the two
    process-wide settings are those of the data model. *)
Record MetadataStorageConfig : Type := {
  validateModels : bool;
  areTimestampsInMilliseconds : bool
}.

(** The store client handle and the collection references it hands out.
    [firestoreRef.collection(path)] only builds a reference. *)
Record Firestore : Type := { databaseId : string }.

Record CollectionReference : Type := {
  cr_firestore : Firestore;
  cr_path : string
}.

Definition collection (fs : Firestore) (p : string) : CollectionReference :=
  {| cr_firestore := fs; cr_path := p |}.

(** The argument of the constructor: [string | IEntityConstructor]. *)
Inductive PathOrConstructor : Type :=
| Path (s : string)
| Constructor (c : EntityConstructor).

(** What [getMetadataStorage()] returns, as the constructor destructures
    it.  [getCollection] lives in MetadataStorage.ts and is taken as it is
    used: a lookup whose miss is a falsy result. *)
Record MetadataStorage : Type := {
  getCollection : PathOrConstructor -> option FullCollectionMetadata;
  ms_config : MetadataStorageConfig;
  firestoreRef : option Firestore
}.

(** ** Queries *)

(** Modelled from the spec: the query types are declared in types.ts, which
    is not part of the sources at hand.  A query line is a field, one of six
    operators and a value; an order-by clause is a field and a direction; a
    QuerySpec is a list of query lines, an optional limit and a list of
    order-by clauses. *)
Inductive FirestoreOperators : Type :=
| OpEqual | OpLessThan | OpLessOrEqual | OpGreaterThan | OpGreaterOrEqual
| OpArrayContains.

Record QueryLine : Type := {
  field : string;
  operator : FirestoreOperators;
  value : Value
}.

Inductive Direction : Type := Ascending | Descending.

Record OrderByClause : Type := {
  ob_field : string;
  direction : Direction
}.

Record QuerySpec : Type := {
  queries : list QueryLine;
  limitVal : option Z;
  orderByObj : list OrderByClause
}.

Definition emptySpec : QuerySpec :=
  {| queries := []; limitVal := None; orderByObj := [] |}.

(** [IWherePropParam<T>]: a key of the entity or an accessor lambda; the
    lambda is given by the property chain it walks. *)
Inductive WhereProp : Type :=
| PropKey (k : string)
| PropAccessor (chain : list string).

(** ** Entities *)

Record Transaction : Type := { tran_ident : nat }.

(** Modelled from the spec: [getRepository] (helpers.ts) and
    [FirestoreTransaction.getRepository] are not part of the sources at hand.
    Their results are kept symbolic, the factory that was called with its
    arguments: a standalone repository bound to [path], and a repository
    bound to [path] that is scoped to the transaction [tran]. *)
Inductive RepositoryHandle : Type :=
| GetRepository (p : string)
| TransactionGetRepository (tran : Transaction) (p : string).

(** A field of a hydrated entity holds document data or an attached
    sub-collection repository. *)
Inductive Field : Type :=
| FValue (v : Value)
| FRepository (r : RepositoryHandle).

(** An entity: the class it is an instance of ([None] for an object
    literal) and its own fields. *)
Record Entity : Type := {
  e_class : option EntityConstructor;
  e_fields : list (string * Field)
}.

(** [entity[k]] *)
Definition getField (e : Entity) (k : string) : Field :=
  match lookup k (e_fields e) with
  | Some f => f
  | None => FValue VUndefined
  end.

Record DocumentSnapshot : Type := {
  doc_exists : bool;
  doc_id : string;
  doc_data : Value
}.

Record ValidationError : Type := {
  ve_property : string;
  ve_constraints : list string
}.

(** ** The world: heap, metadata storage, calls on collaborators *)

Definition loc : Type := nat.

Record Repository : Type := {
  colMetadata : FullCollectionMetadata;
  path : string;
  config : MetadataStorageConfig;
  firestoreColRef : CollectionReference
}.

Record QueryBuilder : Type := {
  executor : loc;
  spec : QuerySpec
}.

Inductive HeapObject : Type :=
| ORepository (r : Repository)
| OQueryBuilder (b : QueryBuilder).

(** Calls that leave the repository: on the metadata storage, on the store
    client, on the [execute] strategy. *)
Inductive Event : Type :=
| CallGetCollection (key : PathOrConstructor)
| CallCollection (p : string)
| CallExecute (r : loc) (q : QuerySpec) (single : bool).

Record World : Type := {
  heap : list HeapObject;
  storage : MetadataStorage;
  trace : list Event
}.

Definition M (A : Type) : Type := World -> Result A * World.

#[global] Instance M_Monad : Monad M := {
  ret := fun A (a : A) (w : World) => (Ok a, w);
  bind := fun A B (c : M A) (k : A -> M B) (w : World) =>
            match c w with
            | (Ok a, w') => k a w'
            | (Throw e, w') => (Throw e, w')
            end
}.

Definition throw {A : Type} (e : JsError) : M A :=
  fun w => (Throw e, w).

Definition liftResult {A : Type} (r : Result A) : M A :=
  fun w => (r, w).

Definition emit (ev : Event) : M unit :=
  fun w => (Ok tt, {| heap := heap w; storage := storage w;
                      trace := (trace w ++ [ev])%list |}).

(** [new C(...)]: the object gets the next free location. *)
Definition alloc (o : HeapObject) : M loc :=
  fun w => (Ok (List.length (heap w)),
            {| heap := (heap w ++ [o])%list; storage := storage w; trace := trace w |}).

Definition readRepository (l : loc) : M Repository :=
  fun w => match nth_error (heap w) l with
           | Some (ORepository r) => (Ok r, w)
           | _ => (Throw (newTypeError "not a repository"), w)
           end.

Definition readQueryBuilder (l : loc) : M QueryBuilder :=
  fun w => match nth_error (heap w) l with
           | Some (OQueryBuilder b) => (Ok b, w)
           | _ => (Throw (newTypeError "not a query builder"), w)
           end.

Definition getMetadataStorage : M MetadataStorage :=
  fun w => (Ok (storage w), w).

(** ** The constructor *)

Definition dquote : string := String "034"%char EmptyString.

Definition uninitializedStoreError : JsError :=
  newError "Firestore must be initialized first".

Definition unregisteredCollectionError (pathOrConstructor : PathOrConstructor) : JsError :=
  newError ("There is no metadata stored for " ++ dquote ++
            match pathOrConstructor with
            | Path s => s
            | Constructor c => ctor_name c
            end ++ dquote).

Definition constructor (pathOrConstructor : PathOrConstructor) : M Repository :=
  ms <- getMetadataStorage ;;
  match firestoreRef ms with
  | None => throw uninitializedStoreError
  | Some fs =>
      emit (CallGetCollection pathOrConstructor) ;;;
      match getCollection ms pathOrConstructor with
      | None => throw (unregisteredCollectionError pathOrConstructor)
      | Some cm =>
          let p := match pathOrConstructor with
                   | Path s => s
                   | Constructor _ => name cm
                   end in
          emit (CallCollection p) ;;;
          ret {| colMetadata := cm; path := p; config := ms_config ms;
                 firestoreColRef := collection fs p |}
      end
  end.

(** [new Repo(pathOrConstructor)] for a concrete subclass that adds no
    state of its own. *)
Definition newRepository (pathOrConstructor : PathOrConstructor) : M loc :=
  r <- constructor pathOrConstructor ;;
  alloc (ORepository r).

(** ** The query builder *)

(** Modelled from the spec: QueryBuilder.ts is not part of the sources at
    hand.  Every method returns a new builder carrying an extended
    QuerySpec and builders are otherwise immutable; a [where*] call appends
    one query line, [field] being resolved to a dotted property path;
    [limit] fails on a negative value and the last limit wins; [orderBy*]
    appends one clause; [find] and [findOne] hand the accumulated spec to
    the bound repository's [execute], with [single] false and true. *)
Module QB.

Definition invalidArgumentError : JsError :=
  {| ename := "InvalidArgumentError"; message := "limit must not be negative";
     code := None |}.

Definition resolveProp (prop : WhereProp) : string :=
  match prop with
  | PropKey k => k
  | PropAccessor chain => String.concat "." chain
  end.

Definition new (repo : loc) : M loc :=
  alloc (OQueryBuilder {| executor := repo; spec := emptySpec |}).

Definition extend (this : loc) (f : QuerySpec -> QuerySpec) : M loc :=
  b <- readQueryBuilder this ;;
  alloc (OQueryBuilder {| executor := executor b; spec := f (spec b) |}).

Definition addQueryLine (line : QueryLine) (q : QuerySpec) : QuerySpec :=
  {| queries := (queries q ++ [line])%list; limitVal := limitVal q;
     orderByObj := orderByObj q |}.

Definition setLimit (n : Z) (q : QuerySpec) : QuerySpec :=
  {| queries := queries q; limitVal := Some n; orderByObj := orderByObj q |}.

Definition addOrderBy (clause : OrderByClause) (q : QuerySpec) : QuerySpec :=
  {| queries := queries q; limitVal := limitVal q;
     orderByObj := (orderByObj q ++ [clause])%list |}.

Definition whereOp (op : FirestoreOperators) (this : loc) (prop : WhereProp)
  (val : Value) : M loc :=
  extend this (addQueryLine {| field := resolveProp prop; operator := op;
                               value := val |}).

Definition whereEqualTo := whereOp OpEqual.
Definition whereGreaterThan := whereOp OpGreaterThan.
Definition whereGreaterOrEqualThan := whereOp OpGreaterOrEqual.
Definition whereLessThan := whereOp OpLessThan.
Definition whereLessOrEqualThan := whereOp OpLessOrEqual.
Definition whereArrayContains := whereOp OpArrayContains.

Definition limit (this : loc) (n : Z) : M loc :=
  if (n <? 0)%Z then throw invalidArgumentError
  else extend this (setLimit n).

Definition orderBy (d : Direction) (this : loc) (prop : WhereProp) : M loc :=
  extend this (addOrderBy {| ob_field := resolveProp prop; direction := d |}).

Definition orderByAscending := orderBy Ascending.
Definition orderByDescending := orderBy Descending.

Section Terminal.
(** The [execute] strategy of the concrete repository class. *)
Variable execute : Repository -> QuerySpec -> bool -> Result (list Entity).

Definition run (this : loc) (single : bool) : M (list Entity) :=
  b <- readQueryBuilder this ;;
  r <- readRepository (executor b) ;;
  emit (CallExecute (executor b) (spec b) single) ;;;
  liftResult (execute r (spec b) single).

Definition find (this : loc) : M (list Entity) := run this false.

Definition findOne (this : loc) : M (option Entity) :=
  res <- run this true ;;
  ret (hd_error res).
End Terminal.

End QB.

(** ** Hydration *)

Definition assignFields (entity : Entity) (source : list (string * Field)) : Entity :=
  {| e_class := e_class entity;
     e_fields := objectAssign (e_fields entity) source |}.

Section Hydration.

(** class-transformer's [plainToClass(cls, plain)]. *)
Variable plainToClass : EntityConstructor -> list (string * Value) -> Entity.

(** The string a template literal makes of [entity.id]. *)
Variable ToString : Field -> string.

Definition pathWithSubCol (this : Repository) (entity : Entity)
  (subCol : SubCollectionMetadata) : string :=
  path this ++ "/" ++ ToString (getField entity "id") ++ "/" ++ subCol_name subCol.

Definition attachSubCollection (this : Repository) (tran : option Transaction)
  (entity : Entity) (subCol : SubCollectionMetadata) : Entity :=
  match tran with
  | Some t =>
      assignFields entity
        [(propertyKey subCol,
          FRepository (TransactionGetRepository t (pathWithSubCol this entity subCol)))]
  | None =>
      assignFields entity
        [(propertyKey subCol,
          FRepository (GetRepository (pathWithSubCol this entity subCol)))]
  end.

(** The entity is updated in place; the updated entity is returned here. *)
Definition initializeSubCollections (this : Repository) (entity : Entity)
  (tran : option Transaction) : Entity :=
  fold_left (attachSubCollection this tran) (subCollections (colMetadata this)) entity.

(** [null] is [None]. *)
Definition extractTFromDocSnap (this : Repository) (doc : DocumentSnapshot)
  (tran : option Transaction) : Result (option Entity) :=
  if negb (doc_exists doc) then Ok None
  else
    data <- transformFirestoreTypes (doc_data doc) ;;
    let entity :=
      plainToClass (entityConstructor (colMetadata this))
        (objectAssign [("id", VStr (doc_id doc))] (ownProperties data)) in
    Ok (Some (initializeSubCollections this entity tran)).

Fixpoint extractTFromColSnap (this : Repository) (docs : list DocumentSnapshot)
  (tran : option Transaction) : Result (list (option Entity)) :=
  match docs with
  | [] => Ok []
  | d :: rest =>
      e <- extractTFromDocSnap this d tran ;;
      es <- extractTFromColSnap this rest tran ;;
      Ok (e :: es)
  end.

(** Modelled from the spec: the snapshot the store client returns for
    [doc(id).get()] on a collection holding [docs], and [findById], which is
    abstract in the class: it fetches one document by identifier and
    returns the hydrated entity, or null if the document does not exist. *)
Definition getDoc (docs : list (string * Value)) (id : string) : DocumentSnapshot :=
  match lookup id docs with
  | Some d => {| doc_exists := true; doc_id := id; doc_data := d |}
  | None => {| doc_exists := false; doc_id := id; doc_data := VUndefined |}
  end.

Definition findById (this : Repository) (docs : list (string * Value)) (id : string)
  : Result (option Entity) :=
  extractTFromDocSnap this (getDoc docs id) None.

End Hydration.

(** [plainToClass] on a class without transformation decorators: a new
    instance that carries the properties of the plain object. *)
Definition plainToClass_default (cls : EntityConstructor)
  (plainObj : list (string * Value)) : Entity :=
  {| e_class := Some cls;
     e_fields := map (fun kv => (fst kv, FValue (snd kv))) plainObj |}.

(** ToString on strings, integers, booleans, [null] and [undefined], and
    on objects that inherit [Object.prototype.toString]; the rendering of
    dates and functions, which depends on the engine and the time zone, is
    not covered and falls under the last case. *)
Definition ToString_default (f : Field) : string :=
  match f with
  | FValue (VStr s) => s
  | FValue (VNum n) => showZ n
  | FValue (VBool true) => "true"
  | FValue (VBool false) => "false"
  | FValue VNull => "null"
  | FValue VUndefined => "undefined"
  | _ => "[object Object]"
  end.

(** ** Entry points of the repository *)

Definition whereEqualTo (this : loc) (prop : WhereProp) (val : Value) : M loc :=
  qb <- QB.new this ;; QB.whereEqualTo qb prop val.

Definition whereGreaterThan (this : loc) (prop : WhereProp) (val : Value) : M loc :=
  qb <- QB.new this ;; QB.whereGreaterThan qb prop val.

Definition whereGreaterOrEqualThan (this : loc) (prop : WhereProp) (val : Value) : M loc :=
  qb <- QB.new this ;; QB.whereGreaterOrEqualThan qb prop val.

Definition whereLessThan (this : loc) (prop : WhereProp) (val : Value) : M loc :=
  qb <- QB.new this ;; QB.whereLessThan qb prop val.

Definition whereLessOrEqualThan (this : loc) (prop : WhereProp) (val : Value) : M loc :=
  qb <- QB.new this ;; QB.whereLessOrEqualThan qb prop val.

Definition whereArrayContains (this : loc) (prop : WhereProp) (val : Value) : M loc :=
  qb <- QB.new this ;; QB.whereArrayContains qb prop val.

Definition limitError (limitVal : Z) : JsError :=
  newError ("limitVal must be greater than 0. It received: " ++ showZ limitVal).

Definition limit (this : loc) (limitVal : Z) : M loc :=
  if (limitVal <? 0)%Z then throw (limitError limitVal)
  else qb <- QB.new this ;; QB.limit qb limitVal.

Definition orderByAscending (this : loc) (prop : WhereProp) : M loc :=
  qb <- QB.new this ;; QB.orderByAscending qb prop.

Definition orderByDescending (this : loc) (prop : WhereProp) : M loc :=
  qb <- QB.new this ;; QB.orderByDescending qb prop.

Section Terminal.
Variable execute : Repository -> QuerySpec -> bool -> Result (list Entity).

Definition find (this : loc) : M (list Entity) :=
  qb <- QB.new this ;; QB.find execute qb.

Definition findOne (this : loc) : M (option Entity) :=
  qb <- QB.new this ;; QB.findOne execute qb.
End Terminal.

(** The nine clause-adding calls. *)
Inductive ClauseCall : Type :=
| CWhereEqualTo (prop : WhereProp) (val : Value)
| CWhereGreaterThan (prop : WhereProp) (val : Value)
| CWhereGreaterOrEqualThan (prop : WhereProp) (val : Value)
| CWhereLessThan (prop : WhereProp) (val : Value)
| CWhereLessOrEqualThan (prop : WhereProp) (val : Value)
| CWhereArrayContains (prop : WhereProp) (val : Value)
| CLimit (limitVal : Z)
| COrderByAscending (prop : WhereProp)
| COrderByDescending (prop : WhereProp).

Definition call (this : loc) (c : ClauseCall) : M loc :=
  match c with
  | CWhereEqualTo prop val => whereEqualTo this prop val
  | CWhereGreaterThan prop val => whereGreaterThan this prop val
  | CWhereGreaterOrEqualThan prop val => whereGreaterOrEqualThan this prop val
  | CWhereLessThan prop val => whereLessThan this prop val
  | CWhereLessOrEqualThan prop val => whereLessOrEqualThan this prop val
  | CWhereArrayContains prop val => whereArrayContains this prop val
  | CLimit n => limit this n
  | COrderByAscending prop => orderByAscending this prop
  | COrderByDescending prop => orderByDescending this prop
  end.

(** The QuerySpec a repository entry point leaves in the builder it
    returns: the empty spec extended by the one clause. *)
Definition clauseSpec (c : ClauseCall) : QuerySpec :=
  let line op prop val :=
    QB.addQueryLine {| field := QB.resolveProp prop; operator := op; value := val |}
                    emptySpec in
  match c with
  | CWhereEqualTo prop val => line OpEqual prop val
  | CWhereGreaterThan prop val => line OpGreaterThan prop val
  | CWhereGreaterOrEqualThan prop val => line OpGreaterOrEqual prop val
  | CWhereLessThan prop val => line OpLessThan prop val
  | CWhereLessOrEqualThan prop val => line OpLessOrEqual prop val
  | CWhereArrayContains prop val => line OpArrayContains prop val
  | CLimit n => QB.setLimit n emptySpec
  | COrderByAscending prop =>
      QB.addOrderBy {| ob_field := QB.resolveProp prop; direction := Ascending |} emptySpec
  | COrderByDescending prop =>
      QB.addOrderBy {| ob_field := QB.resolveProp prop; direction := Descending |} emptySpec
  end.

(** ** validate *)

(** What a call of an async collaborator does: it throws on the spot, or it
    returns a promise, given here by how that promise settles. *)
Inductive CallOutcome (A : Type) : Type :=
| ThrewSync (e : JsError)
| Returned (settled : Result A).
Arguments ThrewSync {A} e.
Arguments Returned {A} settled.

(** The module [class-validator]. *)
Record ClassValidator : Type := {
  cv_validate : Entity -> CallOutcome (list ValidationError)
}.

Definition classValidatorMissing : JsError :=
  newError "It looks like class-validator is not installed. Please run `npm i -S class-validator` to fix this error, or initialize FireORM with `validateModels: false` to disable validation.".

(** [new Entity()] *)
Definition newEntity (cls : EntityConstructor) : Entity :=
  {| e_class := Some cls; e_fields := [] |}.

(** [item instanceof Entity] *)
Definition instanceOf (item : Entity) (cls : EntityConstructor) : bool :=
  match e_class item with
  | Some c => Nat.eqb (ctor_ident c) (ctor_ident cls)
  | None => false
  end.

(** The [catch] clause. *)
Definition validate_catch {A : Type} (error : JsError) : Result A :=
  match code error with
  | Some c => if String.eqb c "MODULE_NOT_FOUND" then Throw classValidatorMissing
              else Throw error
  | None => Throw error
  end.

(** [const entity = item instanceof Entity ? item : Object.assign(new Entity(), item)] *)
Definition toEntityInstance (this : Repository) (item : Entity) : Entity :=
  let EntityClass := entityConstructor (colMetadata this) in
  if instanceOf item EntityClass then item
  else assignFields (newEntity EntityClass) (e_fields item).

(** [importClassValidator] is how [await import('class-validator')]
    settles.  The result is how the promise [validate] returns settles: the
    promise of the collaborator is returned from inside [try] without being
    awaited, so its rejection does not pass through [catch]. *)
Definition validate (importClassValidator : Result ClassValidator)
  (this : Repository) (item : Entity) : Result (list ValidationError) :=
  match importClassValidator with
  | Throw error => validate_catch error
  | Ok classValidator =>
      let entity := toEntityInstance this item in
      match cv_validate classValidator entity with
      | ThrewSync error => validate_catch error
      | Returned settled => settled
      end
  end.

(** ** Sample data *)

Module Sample.

Definition User : EntityConstructor := {| ctor_ident := 1; ctor_name := "User" |}.
Definition Post : EntityConstructor := {| ctor_ident := 2; ctor_name := "Post" |}.
Definition Comment : EntityConstructor := {| ctor_ident := 3; ctor_name := "Comment" |}.

Definition usersMetadata : FullCollectionMetadata :=
  {| name := "users"; entityConstructor := User; subCollections := [] |}.

Definition comments : SubCollectionMetadata :=
  {| subCol_name := "comments"; subCol_entityConstructor := Comment;
     parentEntityConstructor := Post; propertyKey := "comments" |}.

Definition postsMetadata : FullCollectionMetadata :=
  {| name := "posts"; entityConstructor := Post; subCollections := [comments] |}.

Definition registry (key : PathOrConstructor) : option FullCollectionMetadata :=
  match key with
  | Path s => if String.eqb s "users" then Some usersMetadata
              else if String.eqb s "posts" then Some postsMetadata else None
  | Constructor c =>
      if Nat.eqb (ctor_ident c) 1 then Some usersMetadata
      else if Nat.eqb (ctor_ident c) 2 then Some postsMetadata else None
  end.

Definition defaults : MetadataStorageConfig :=
  {| validateModels := true; areTimestampsInMilliseconds := false |}.

Definition db : Firestore := {| databaseId := "(default)" |}.

Definition initialized : World :=
  {| heap := [];
     storage := {| getCollection := registry; ms_config := defaults;
                   firestoreRef := Some db |};
     trace := [] |}.

Definition uninitialized : World :=
  {| heap := [];
     storage := {| getCollection := registry; ms_config := defaults;
                   firestoreRef := None |};
     trace := [] |}.

Definition users : Repository :=
  {| colMetadata := usersMetadata; path := "users"; config := defaults;
     firestoreColRef := collection db "users" |}.

Definition posts : Repository :=
  {| colMetadata := postsMetadata; path := "posts"; config := defaults;
     firestoreColRef := collection db "posts" |}.

(** A world whose heap holds the [users] repository at location 0. *)
Definition withUsers : World :=
  {| heap := [ORepository users]; storage := storage initialized; trace := [] |}.

(** A store timestamp: seconds and nanoseconds, and a [toDate] method. *)
Definition Timestamp (seconds : Z) : Value :=
  VObj [("_seconds", VNum seconds); ("_nanoseconds", VNum 0)]
       [("constructor", VFun "Timestamp" VUndefined);
        ("toDate", VFun "toDate" (VDate (seconds * 1000)))].


Definition GeoPoint (lat lng : Z) : Value :=
  VObj [("_latitude", VNum lat); ("_longitude", VNum lng)]
       [("constructor", VFun "GeoPoint" VUndefined);
        ("latitude", VNum lat); ("longitude", VNum lng)].


Definition DocumentReference (p id : string) : Value :=
  VObj [("_path", VStr p)]
       [("constructor", VFun "DocumentReference" VUndefined);
        ("id", VStr id); ("path", VStr p)].


(** A stored booking with a map field that holds a date range. *)
Definition booking : Value :=
  plain [("guest", VStr "Ann");
         ("range", plain [("fromDate", Timestamp 10); ("toDate", Timestamp 20)])].

Definition ann : DocumentSnapshot :=
  {| doc_exists := true; doc_id := "u1";
     doc_data := plain [("name", VStr "Ann"); ("createdAt", Timestamp 5)] |}.

(** A document whose stored data has a field named [id]. *)
Definition bob : DocumentSnapshot :=
  {| doc_exists := true; doc_id := "u2";
     doc_data := plain [("name", VStr "Bob"); ("id", VStr "legacy-7")] |}.

Definition missing : DocumentSnapshot :=
  {| doc_exists := false; doc_id := "missing"; doc_data := VUndefined |}.

Definition hello : DocumentSnapshot :=
  {| doc_exists := true; doc_id := "p1";
     doc_data := plain [("title", VStr "Hello")] |}.

Definition tx : Transaction := {| tran_ident := 7 |}.

Definition nameTooShort : ValidationError :=
  {| ve_property := "name"; ve_constraints := ["minLength"] |}.

(** A validator that reports one violation for every entity. *)
Definition strict : ClassValidator :=
  {| cv_validate := fun _ => Returned (Ok [nameTooShort]) |}.

Definition moduleNotFound : JsError :=
  {| ename := "Error"; message := "Cannot find module 'class-validator'";
     code := Some "MODULE_NOT_FOUND" |}.

Definition outOfMemory : JsError :=
  {| ename := "RangeError"; message := "Out of memory"; code := None |}.

Definition annItem : Entity :=
  {| e_class := None; e_fields := [("name", FValue (VStr "A"))] |}.

End Sample.

(** ** Vocabulary of the statements *)

(** The world [w] with another [getCollection] in its metadata storage. *)
Definition withGetCollection
  (gc : PathOrConstructor -> option FullCollectionMetadata) (w : World) : World :=
  {| heap := heap w;
     storage := {| getCollection := gc; ms_config := ms_config (storage w);
                   firestoreRef := firestoreRef (storage w) |};
     trace := trace w |}.

(** [w'] differs from [w] by newly allocated objects only. *)
Definition onlyAllocates (w w' : World) : Prop :=
  (exists objs, heap w' = (heap w ++ objs)%list) /\
  storage w' = storage w /\
  trace w' = trace w.

(** The builder a repository entry point allocates first. *)
Definition freshBuilder (r : loc) : HeapObject :=
  OQueryBuilder {| executor := r; spec := emptySpec |}.

(** The repository [initializeSubCollections] asks for: through the
    transaction when there is one, standalone otherwise. *)
Definition attachedRepository (tran : option Transaction) (p : string) : RepositoryHandle :=
  match tran with
  | Some t => TransactionGetRepository t p
  | None => GetRepository p
  end.



(** ** Vocabulary of the further properties *)

(** Document data none of whose objects can be misread: no object has an
    own field named [toDate] or [constructor]; an object either inherits a
    [toDate] method, or it inherits its constructor and each of its own
    fields is such data again. *)
Fixpoint storeData (v : Value) : bool :=
  match v with
  | VObj own proto =>
      match lookup "toDate" own with
      | Some _ => false
      | None =>
          match lookup "toDate" proto with
          | Some (VFun _ _) => true
          | Some _ => false
          | None =>
              match lookup "constructor" own, lookup "constructor" proto with
              | None, Some (VFun _ _) => forallb (fun kv => storeData (snd kv)) own
              | _, _ => false
              end
          end
      end
  | _ => true
  end.

(** [v.k] read from an object, where the read cannot throw. *)
Definition member (v : Value) (k : string) : Value :=
  match getProp v k with
  | Ok x => x
  | Throw _ => VUndefined
  end.

(** What deserialization is to make of stored data: a value with a
    [toDate] method becomes the date that method gives, a GeoPoint a plain
    [{latitude, longitude}], a DocumentReference a plain [{id, path}]; any
    other object keeps its class and has each of its fields deserialized;
    every other value is kept. *)
Fixpoint deserialized (v : Value) : Value :=
  match v with
  | VObj own proto =>
      match lookup "toDate" proto with
      | Some (VFun _ date) => date
      | _ =>
          match lookup "constructor" proto with
          | Some (VFun cname _) =>
              if String.eqb cname "GeoPoint" then
                plain [("latitude", member v "latitude");
                       ("longitude", member v "longitude")]
              else if String.eqb cname "DocumentReference" then
                plain [("id", member v "id"); ("path", member v "path")]
              else VObj (map (fun kv => (fst kv, deserialized (snd kv))) own) proto
          | _ => VObj (map (fun kv => (fst kv, deserialized (snd kv))) own) proto
          end
      end
  | _ => v
  end.

(** The values the callback hands to the recursive call: objects without a
    [toDate] member whose constructor is named neither GeoPoint nor
    DocumentReference. *)
Definition isComposite (v : Value) : bool :=
  truthy v && String.eqb (typeof v) "object" && negb (hasProperty "toDate" v) &&
  match getProp v "constructor" with
  | Ok c =>
      match getProp c "name" with
      | Ok n => negb (strictEqStr n "GeoPoint") && negb (strictEqStr n "DocumentReference")
      | Throw _ => false
      end
  | Throw _ => false
  end.

(** The value found by following own properties from [v] along [ks]. *)
Fixpoint lookupPath (ks : list string) (v : Value) : option Value :=
  match ks with
  | [] => Some v
  | k :: rest =>
      match v with
      | VObj own _ =>
          match lookup k own with
          | Some child => lookupPath rest child
          | None => None
          end
      | _ => None
      end
  end.

(** The same, along a path whose every inner step enters a composite. *)
Fixpoint walkPath (ks : list string) (v : Value) : option Value :=
  match ks with
  | [] => Some v
  | k :: rest =>
      match v with
      | VObj own _ =>
          match lookup k own with
          | Some child =>
              match rest with
              | [] => Some child
              | _ :: _ => if isComposite child then walkPath rest child else None
              end
          | None => None
          end
      | _ => None
      end
  end.

(** ** Further sample data *)

Module Fixture.

Definition replies : SubCollectionMetadata :=
  {| subCol_name := "replies"; subCol_entityConstructor := Sample.Comment;
     parentEntityConstructor := Sample.Post; propertyKey := "comments" |}.

(** A collection with two sub-collections under one property key. *)
Definition threads : Repository :=
  {| colMetadata := {| name := "threads"; entityConstructor := Sample.Post;
                       subCollections := [Sample.comments; replies] |};
     path := "threads"; config := Sample.defaults;
     firestoreColRef := collection Sample.db "threads" |}.

Definition p1 : Entity :=
  {| e_class := Some Sample.Post;
     e_fields := [("id", FValue (VStr "p1")); ("title", FValue (VStr "Hello"))] |}.

(** A post whose stored data has a field named [id]. *)
Definition legacyPost : DocumentSnapshot :=
  {| doc_exists := true; doc_id := "p2";
     doc_data := plain [("title", VStr "Old"); ("id", VStr "legacy-9")] |}.



End Fixture.

(** * Properties *)

(** ** The monad *)

Lemma M_bind_ok {A B : Type} (c : M A) (k : A -> M B) (w w' : World) (a : A) :
  c w = (Ok a, w') -> (x <- c ;; k x) w = k a w'.
Proof. intros H. cbn. rewrite H. reflexivity. Qed.

Lemma M_bind_throw {A B : Type} (c : M A) (k : A -> M B) (w w' : World) (e : JsError) :
  c w = (Throw e, w') -> (x <- c ;; k x) w = (Throw e, w').
Proof. intros H. cbn. rewrite H. reflexivity. Qed.

(** ** Property lists *)

Section PropertyLists.

Context {A : Type}.
Implicit Types (l src target : list (string * A)) (k : string) (v : A).

Lemma lookup_setProp_eq l k v : lookup k (setProp k v l) = Some v.
Proof.
  induction l as [|[k' v'] l IH]; cbn.
  - rewrite String.eqb_refl. reflexivity.
  - destruct (String.eqb_spec k k') as [->|Hne]; cbn.
    + rewrite String.eqb_refl. reflexivity.
    + destruct (String.eqb_spec k k'); [contradiction|exact IH].
Qed.

Lemma lookup_setProp_ne l k k' v :
  k <> k' -> lookup k (setProp k' v l) = lookup k l.
Proof.
  intros Hne. induction l as [|[k0 v0] l IH]; cbn.
  - destruct (String.eqb_spec k k'); [contradiction|reflexivity].
  - destruct (String.eqb_spec k' k0) as [->|Hne0]; cbn.
    + destruct (String.eqb_spec k k0); [contradiction|reflexivity].
    + destruct (String.eqb_spec k k0); [reflexivity|exact IH].
Qed.

Lemma lookup_None_iff l k : lookup k l = None <-> ~ In k (keys l).
Proof.
  induction l as [|[k' v'] l IH]; cbn.
  - tauto.
  - destruct (String.eqb_spec k k') as [->|Hne].
    + split; [discriminate|]. intros H. exfalso. apply H. left. reflexivity.
    + rewrite IH. split.
      * intros H [Heq|Hin]; [congruence|contradiction].
      * intros H Hin. apply H. right. exact Hin.
Qed.

Lemma lookup_objectAssign_notin src target k :
  ~ In k (keys src) -> lookup k (objectAssign target src) = lookup k target.
Proof.
  unfold objectAssign. revert target.
  induction src as [|[k0 v0] src IH]; intros target Hnin; cbn; [reflexivity|].
  rewrite IH by (intros Hin; apply Hnin; right; exact Hin).
  apply lookup_setProp_ne. intros ->. apply Hnin. left. reflexivity.
Qed.

(** A spread writes every source key that occurs once. *)
Lemma lookup_objectAssign_in src target k v :
  NoDup (keys src) -> lookup k src = Some v ->
  lookup k (objectAssign target src) = Some v.
Proof.
  unfold objectAssign. revert target.
  induction src as [|[k0 v0] src IH]; intros target Hnd Hl; cbn in *; [discriminate|].
  inversion Hnd as [|? ? Hnin Hnd']; subst.
  destruct (String.eqb_spec k k0) as [->|Hne].
  - inversion Hl; subst.
    change (lookup k0 (objectAssign (setProp k0 v target) src) = Some v).
    rewrite lookup_objectAssign_notin by exact Hnin. apply lookup_setProp_eq.
  - apply IH; assumption.
Qed.

End PropertyLists.

(** ** Construction *)

(** C6.  Construction throws the "Firestore must be initialized first" error
    when the metadata storage holds no store handle; with a handle, it throws
    the "There is no metadata stored for ..." error when the lookup of the
    given path or entity type finds nothing; otherwise it yields a repository
    on the metadata found, whose path is the literal path when a string was
    given and the metadata's name otherwise, with a collection reference on
    that path. *)
Theorem constructor_outcome (key : PathOrConstructor) (w : World) :
  (firestoreRef (storage w) = None ->
   fst (constructor key w) = Throw uninitializedStoreError) /\
  (forall fs, firestoreRef (storage w) = Some fs ->
              getCollection (storage w) key = None ->
   fst (constructor key w) = Throw (unregisteredCollectionError key)) /\
  (forall fs cm, firestoreRef (storage w) = Some fs ->
                 getCollection (storage w) key = Some cm ->
   exists r, fst (constructor key w) = Ok r /\
             colMetadata r = cm /\
             path r = match key with Path s => s | Constructor _ => name cm end /\
             config r = ms_config (storage w) /\
             firestoreColRef r = collection fs (path r)).
Proof.
  unfold constructor. cbn.
  repeat split.
  - intros H. rewrite H. reflexivity.
  - intros fs Hfs Hgc. rewrite Hfs. cbn. rewrite Hgc. reflexivity.
  - intros fs cm Hfs Hgc. rewrite Hfs. cbn. rewrite Hgc. cbn.
    eexists. split; [reflexivity|]. cbn. repeat split.
Qed.

Lemma constructor_outcome_witness :
  fst (constructor (Path "users") Sample.uninitialized) = Throw uninitializedStoreError /\
  fst (constructor (Path "nowhere") Sample.initialized)
    = Throw (unregisteredCollectionError (Path "nowhere")) /\
  exists r, fst (constructor (Constructor Sample.Post) Sample.initialized) = Ok r /\
            colMetadata r = Sample.postsMetadata /\
            path r = "posts" /\
            config r = Sample.defaults /\
            firestoreColRef r = collection Sample.db (path r).
Proof.
  split; [|split].
  - apply (proj1 (constructor_outcome (Path "users") Sample.uninitialized)).
    reflexivity.
  - apply (proj1 (proj2 (constructor_outcome (Path "nowhere") Sample.initialized))
             Sample.db); reflexivity.
  - apply (proj2 (proj2 (constructor_outcome (Constructor Sample.Post) Sample.initialized))
             Sample.db Sample.postsMetadata); reflexivity.
Defined.

(** C10.  With no store handle in the metadata storage, construction throws
    the uninitialized-store error and leaves the world as it was: no call of
    [getCollection] is recorded, and the outcome is the same whatever
    [getCollection] would have answered for the key. *)
Theorem constructor_checks_store_first (key : PathOrConstructor) (w : World) :
  firestoreRef (storage w) = None ->
  constructor key w = (Throw uninitializedStoreError, w) /\
  (forall k, In (CallGetCollection k) (trace (snd (constructor key w))) ->
             In (CallGetCollection k) (trace w)) /\
  (forall gc, fst (constructor key (withGetCollection gc w))
              = Throw uninitializedStoreError).
Proof.
  intros H.
  assert (E : constructor key w = (Throw uninitializedStoreError, w)).
  { unfold constructor. cbn. rewrite H. reflexivity. }
  split; [exact E|]. split.
  - intros k. rewrite E. trivial.
  - intros gc. unfold constructor. cbn. rewrite H. reflexivity.
Qed.

Lemma constructor_checks_store_first_witness :
  constructor (Path "nowhere") Sample.uninitialized
    = (Throw uninitializedStoreError, Sample.uninitialized) /\
  (forall k, In (CallGetCollection k)
               (trace (snd (constructor (Path "nowhere") Sample.uninitialized))) ->
             In (CallGetCollection k) (trace Sample.uninitialized)) /\
  (forall gc, fst (constructor (Path "nowhere")
                     (withGetCollection gc Sample.uninitialized))
              = Throw uninitializedStoreError).
Proof.
  apply (constructor_checks_store_first (Path "nowhere") Sample.uninitialized).
  reflexivity.
Defined.

Lemma constructor_consults_registry (key : PathOrConstructor) (w : World) (fs : Firestore) :
  firestoreRef (storage w) = Some fs ->
  In (CallGetCollection key) (trace (snd (constructor key w))).
Proof.
  intros H. unfold constructor. cbn. rewrite H. cbn.
  destruct (getCollection (storage w) key); cbn;
    apply in_or_app; [left; apply in_or_app|]; right; left; reflexivity.
Qed.

(** ** Query-builder entry points *)

Lemma readQueryBuilder_last (w : World) (b : QueryBuilder) (objs : list HeapObject) :
  nth_error (heap w ++ OQueryBuilder b :: objs) (List.length (heap w))
  = Some (OQueryBuilder b).
Proof.
  rewrite nth_error_app2 by lia. rewrite Nat.sub_diag. reflexivity.
Qed.

Lemma new_then_extend (r : loc) (f : QuerySpec -> QuerySpec) (w : World) :
  (qb <- QB.new r ;; QB.extend qb f) w
  = (Ok (S (List.length (heap w))),
     {| heap := (heap w ++ [freshBuilder r;
                            OQueryBuilder {| executor := r; spec := f emptySpec |}])%list;
        storage := storage w; trace := trace w |}).
Proof.
  unfold QB.new, QB.extend, alloc, readQueryBuilder, freshBuilder. cbn.
  rewrite readQueryBuilder_last. cbn.
  rewrite length_app, <- app_assoc. cbn.
  replace (List.length (heap w) + 1) with (S (List.length (heap w))) by lia.
  reflexivity.
Qed.

Lemma limit_negative (r : loc) (n : Z) (w : World) :
  (n < 0)%Z -> limit r n w = (Throw (limitError n), w).
Proof.
  intros H. unfold limit. apply Z.ltb_lt in H. rewrite H. reflexivity.
Qed.

Lemma limit_nonnegative (r : loc) (n : Z) (w : World) :
  (0 <= n)%Z ->
  limit r n w
  = (Ok (S (List.length (heap w))),
     {| heap := (heap w ++ [freshBuilder r;
                            OQueryBuilder {| executor := r;
                                             spec := QB.setLimit n emptySpec |}])%list;
        storage := storage w; trace := trace w |}).
Proof.
  intros H. unfold limit, QB.limit.
  assert (E : (n <? 0)%Z = false) by (apply Z.ltb_ge; lia).
  rewrite E. apply new_then_extend.
Qed.

(** C4.  [limit] with a negative value throws the "limitVal must be greater
    than 0" error and leaves the world as it was: nothing is allocated and no
    call on a collaborator is recorded.  With a value that is not negative it
    returns a builder that did not exist before, bound to the repository and
    carrying that very value as its limit, and again records no call. *)
Theorem limit_guard (r : loc) (n : Z) (w : World) :
  ((n < 0)%Z -> limit r n w = (Throw (limitError n), w)) /\
  ((0 <= n)%Z ->
   exists b w', limit r n w = (Ok b, w') /\
                nth_error (heap w) b = None /\
                nth_error (heap w') b
                = Some (OQueryBuilder {| executor := r;
                                         spec := {| queries := []; limitVal := Some n;
                                                    orderByObj := [] |} |}) /\
                onlyAllocates w w').
Proof.
  split.
  - apply limit_negative.
  - intros H. rewrite (limit_nonnegative r n w H).
    eexists. eexists. split; [reflexivity|].
    unfold onlyAllocates. cbn [heap storage trace]. split; [|split].
    + apply nth_error_None. lia.
    + rewrite nth_error_app2 by lia.
      replace (S (List.length (heap w)) - List.length (heap w)) with 1 by lia.
      reflexivity.
    + split; [eexists; reflexivity|split; reflexivity].
Qed.

Lemma limit_guard_witness :
  limit 0 (-1) Sample.withUsers
    = (Throw (newError "limitVal must be greater than 0. It received: -1"),
       Sample.withUsers) /\
  exists b w', limit 0 10 Sample.withUsers = (Ok b, w') /\
               nth_error (heap Sample.withUsers) b = None /\
               nth_error (heap w') b
               = Some (OQueryBuilder {| executor := 0;
                                        spec := {| queries := []; limitVal := Some 10%Z;
                                                   orderByObj := [] |} |}) /\
               onlyAllocates Sample.withUsers w'.
Proof.
  split.
  - apply (proj1 (limit_guard 0 (-1) Sample.withUsers)). lia.
  - apply (proj2 (limit_guard 0 10 Sample.withUsers)). lia.
Defined.

Lemma call_outcome (r : loc) (c : ClauseCall) (w : World) :
  (exists n, c = CLimit n /\ (n < 0)%Z /\ call r c w = (Throw (limitError n), w)) \/
  call r c w
  = (Ok (S (List.length (heap w))),
     {| heap := (heap w ++ [freshBuilder r;
                            OQueryBuilder {| executor := r; spec := clauseSpec c |}])%list;
        storage := storage w; trace := trace w |}).
Proof.
  destruct c as [? ? | ? ? | ? ? | ? ? | ? ? | ? ? | n | ? | ?]; cbn [call];
    try (right; apply new_then_extend).
  destruct (Z.lt_ge_cases n 0) as [Hneg | Hpos].
  - left. exists n. auto using limit_negative.
  - right. apply limit_nonnegative. exact Hpos.
Qed.

Section TerminalCalls.

Variable execute : Repository -> QuerySpec -> bool -> Result (list Entity).

Lemma run_fresh (r : loc) (repo : Repository) (single : bool) (w : World) :
  nth_error (heap w) r = Some (ORepository repo) ->
  (qb <- QB.new r ;; QB.run execute qb single) w
  = (execute repo emptySpec single,
     {| heap := (heap w ++ [freshBuilder r])%list; storage := storage w;
        trace := (trace w ++ [CallExecute r emptySpec single])%list |}).
Proof.
  intros Hr.
  unfold QB.new, QB.run, alloc, readQueryBuilder, readRepository, emit, liftResult,
    freshBuilder.
  cbn. rewrite readQueryBuilder_last. cbn.
  rewrite nth_error_app1 by (apply nth_error_Some; congruence).
  rewrite Hr. reflexivity.
Qed.

Lemma find_result (r : loc) (repo : Repository) (w : World) :
  nth_error (heap w) r = Some (ORepository repo) ->
  fst (find execute r w) = execute repo emptySpec false.
Proof.
  intros Hr. unfold find, QB.find. rewrite (run_fresh r repo false w Hr). reflexivity.
Qed.

Lemma findOne_result (r : loc) (repo : Repository) (w : World) :
  nth_error (heap w) r = Some (ORepository repo) ->
  fst (findOne execute r w)
  = match execute repo emptySpec true with
    | Ok res => Ok (hd_error res)
    | Throw e => Throw e
    end.
Proof.
  intros Hr. unfold findOne, QB.findOne.
  pose proof (run_fresh r repo true w Hr) as E.
  cbn in E |- *. unfold QB.new in E. rewrite E.
  destruct (execute repo emptySpec true); reflexivity.
Qed.

(** [find] is where the store is reached: the call on [execute] is recorded. *)
Lemma find_calls_execute (r : loc) (repo : Repository) (w : World) :
  nth_error (heap w) r = Some (ORepository repo) ->
  In (CallExecute r emptySpec false) (trace (snd (find execute r w))).
Proof.
  intros Hr. unfold find, QB.find. rewrite (run_fresh r repo false w Hr).
  cbn [snd trace]. apply in_or_app. right. left. reflexivity.
Qed.

(** C9.  A clause-adding call on a repository [r] either throws without
    touching the world, which only [limit] with a negative value does, or
    returns a builder that did not exist before, bound to [r] and carrying
    just the one clause.  Either way the world differs from the one before
    by newly allocated objects only: [r] is the object it was, no call on a
    collaborator was made, and [find] and [findOne] on [r] give what they
    gave before. *)
Theorem clause_call_frame (r : loc) (repo : Repository) (c : ClauseCall)
  (w w' : World) (res : Result loc) :
  nth_error (heap w) r = Some (ORepository repo) ->
  call r c w = (res, w') ->
  onlyAllocates w w' /\
  nth_error (heap w') r = Some (ORepository repo) /\
  fst (find execute r w') = fst (find execute r w) /\
  fst (findOne execute r w') = fst (findOne execute r w) /\
  match res with
  | Ok b =>
      nth_error (heap w) b = None /\
      nth_error (heap w') b
      = Some (OQueryBuilder {| executor := r; spec := clauseSpec c |})
  | Throw e =>
      exists n, c = CLimit n /\ (n < 0)%Z /\ e = limitError n /\ w' = w
  end.
Proof.
  intros Hr Hcall.
  assert (Hr' : nth_error (heap w') r = Some (ORepository repo) /\ onlyAllocates w w').
  { destruct (call_outcome r c w) as [(n & _ & _ & E) | E];
      rewrite E in Hcall; inversion Hcall; subst; clear Hcall.
    - split; [exact Hr|]. repeat split. exists []. symmetry. apply app_nil_r.
    - unfold onlyAllocates. cbn [heap storage trace]. split.
      + rewrite nth_error_app1 by (apply nth_error_Some; congruence). exact Hr.
      + split; [eexists; reflexivity|split; reflexivity]. }
  destruct Hr' as [Hr' Hframe].
  split; [exact Hframe|]. split; [exact Hr'|].
  split; [rewrite (find_result r repo w' Hr'), (find_result r repo w Hr); reflexivity|].
  split; [rewrite (findOne_result r repo w' Hr'), (findOne_result r repo w Hr);
          reflexivity|].
  destruct (call_outcome r c w) as [(n & Hc & Hn & E) | E];
    rewrite E in Hcall; inversion Hcall; subst; clear Hcall.
  - exists n. auto.
  - cbn [heap]. split.
    + apply nth_error_None. lia.
    + rewrite nth_error_app2 by lia.
      replace (S (List.length (heap w)) - List.length (heap w)) with 1 by lia.
      reflexivity.
Qed.

End TerminalCalls.

Lemma clause_call_frame_witness :
  let c := CWhereEqualTo (PropAccessor ["address"; "city"]) (VStr "Oslo") in
  let w' := snd (call 0 c Sample.withUsers) in
  onlyAllocates Sample.withUsers w' /\
  nth_error (heap w') 0 = Some (ORepository Sample.users) /\
  fst (find (fun _ _ _ => Ok []) 0 w') = fst (find (fun _ _ _ => Ok []) 0 Sample.withUsers) /\
  fst (findOne (fun _ _ _ => Ok []) 0 w')
  = fst (findOne (fun _ _ _ => Ok []) 0 Sample.withUsers) /\
  nth_error (heap Sample.withUsers) 2 = None /\
  nth_error (heap w') 2
  = Some (OQueryBuilder
            {| executor := 0;
               spec := {| queries := [{| field := "address.city"; operator := OpEqual;
                                         value := VStr "Oslo" |}];
                          limitVal := None; orderByObj := [] |} |}).
Proof.
  intros c w'.
  exact (clause_call_frame (fun _ _ _ => Ok []) 0 Sample.users c Sample.withUsers w' (Ok 2)
           eq_refl eq_refl).
Defined.

(** ** validate *)

Lemma validate_catch_other {A : Type} (error : JsError) :
  code error <> Some "MODULE_NOT_FOUND" ->
  @validate_catch A error = Throw error.
Proof.
  intros H. unfold validate_catch. destruct (code error) as [c|]; [|reflexivity].
  destruct (String.eqb_spec c "MODULE_NOT_FOUND") as [->|]; [contradiction|reflexivity].
Qed.

Lemma validate_catch_module_not_found {A : Type} (error : JsError) :
  code error = Some "MODULE_NOT_FOUND" ->
  @validate_catch A error = Throw classValidatorMissing.
Proof. intros H. unfold validate_catch. rewrite H. reflexivity. Qed.

(** C8.  When the collaborator's promise is fulfilled, [validate] is
    fulfilled with that very list of violations.  When the import of the
    collaborator fails with code MODULE_NOT_FOUND, [validate] is rejected with
    the "class-validator is not installed" error, which is no list of
    violations.  Every other error is passed on as it is: one from the import
    or thrown by the collaborator with another code, and one the
    collaborator's promise is rejected with. *)
Theorem validate_outcomes (this : Repository) (item : Entity) :
  (forall cv violations,
      cv_validate cv (toEntityInstance this item) = Returned (Ok violations) ->
      validate (Ok cv) this item = Ok violations) /\
  (forall error,
      code error = Some "MODULE_NOT_FOUND" ->
      validate (Throw error) this item = Throw classValidatorMissing /\
      forall violations, validate (Throw error) this item <> Ok violations) /\
  (forall error,
      code error <> Some "MODULE_NOT_FOUND" ->
      validate (Throw error) this item = Throw error) /\
  (forall cv error,
      code error <> Some "MODULE_NOT_FOUND" ->
      cv_validate cv (toEntityInstance this item) = ThrewSync error ->
      validate (Ok cv) this item = Throw error) /\
  (forall cv error,
      cv_validate cv (toEntityInstance this item) = Returned (Throw error) ->
      validate (Ok cv) this item = Throw error).
Proof.
  repeat split.
  - intros cv vs H. unfold validate. rewrite H. reflexivity.
  - cbn. apply validate_catch_module_not_found. assumption.
  - intros vs. cbn. rewrite validate_catch_module_not_found by assumption. discriminate.
  - intros error H. cbn. apply validate_catch_other. exact H.
  - intros cv error Hc H. unfold validate. rewrite H. apply validate_catch_other. exact Hc.
  - intros cv error H. unfold validate. rewrite H. reflexivity.
Qed.

Lemma validate_outcomes_witness :
  validate (Ok Sample.strict) Sample.users Sample.annItem = Ok [Sample.nameTooShort] /\
  validate (Throw Sample.moduleNotFound) Sample.users Sample.annItem
    = Throw classValidatorMissing /\
  validate (Throw Sample.outOfMemory) Sample.users Sample.annItem
    = Throw Sample.outOfMemory /\
  validate (Ok {| cv_validate := fun _ => ThrewSync Sample.outOfMemory |})
           Sample.users Sample.annItem = Throw Sample.outOfMemory /\
  validate (Ok {| cv_validate := fun _ => Returned (Throw Sample.moduleNotFound) |})
           Sample.users Sample.annItem = Throw Sample.moduleNotFound.
Proof.
  pose proof (validate_outcomes Sample.users Sample.annItem) as (H1 & H2 & H3 & H4 & H5).
  split; [|split; [|split; [|split]]].
  - apply H1. reflexivity.
  - apply H2. reflexivity.
  - apply H3. discriminate.
  - apply H4; [discriminate|reflexivity].
  - apply H5. reflexivity.
Defined.

(** ** Deserialization *)

Lemma transformFirestoreTypes_object (own proto : list (string * Value)) :
  transformFirestoreTypes (VObj own proto)
  = (own' <- forEachKey (transformField transformFirestoreTypes) own ;;
     Ok (VObj own' proto)).
Proof.
  cbn.
  match goal with
  | |- match ?walk own with _ => _ end = _ =>
      assert (W : forall kvs,
                 walk kvs = forEachKey (transformField transformFirestoreTypes) kvs)
  end.
  { induction kvs as [|[key v] rest IH]; [reflexivity|].
    cbn. destruct (transformField transformFirestoreTypes v); [|reflexivity].
    rewrite IH. reflexivity. }
  rewrite W. reflexivity.
Qed.

Lemma forEachKey_keys (f : Value -> Result Value) (kvs kvs' : list (string * Value)) :
  forEachKey f kvs = Ok kvs' -> keys kvs' = keys kvs.
Proof.
  revert kvs'. induction kvs as [|[key v] rest IH]; cbn; intros kvs' H.
  - inversion H. reflexivity.
  - destruct (f v) as [v'|]; [|discriminate].
    destruct (forEachKey f rest) as [rest'|]; [|discriminate].
    inversion H; subst. cbn. f_equal. apply IH. reflexivity.
Qed.

(** Every field of the result is what the callback made of the field of
    the same name. *)
Lemma forEachKey_lookup (f : Value -> Result Value) (kvs kvs' : list (string * Value))
  (k : string) (v : Value) :
  forEachKey f kvs = Ok kvs' -> lookup k kvs = Some v ->
  exists v', f v = Ok v' /\ lookup k kvs' = Some v'.
Proof.
  revert kvs'. induction kvs as [|[key v0] rest IH]; cbn; intros kvs' H Hl; [discriminate|].
  destruct (f v0) as [v0'|] eqn:E0; [|discriminate].
  destruct (forEachKey f rest) as [rest'|]; [|discriminate].
  inversion H; subst. cbn.
  destruct (String.eqb k key).
  - inversion Hl; subst. eauto.
  - apply IH; [reflexivity|exact Hl].
Qed.

Lemma transformFirestoreTypes_keys (d d' : Value) :
  transformFirestoreTypes d = Ok d' ->
  keys (ownProperties d') = keys (ownProperties d).
Proof.
  destruct d; try (cbn; intros H; inversion H; reflexivity).
  rewrite transformFirestoreTypes_object. cbn.
  destruct (forEachKey _ own) as [own'|] eqn:E; [|discriminate].
  intros H. inversion H; subst. cbn. eapply forEachKey_keys. exact E.
Qed.

(** A falsy field is left as it is, whatever the recursive call would do. *)
Lemma transformField_falsy (recur : Value -> Result Value) (v : Value) :
  truthy v = false -> transformField recur v = Ok v.
Proof. intros H. unfold transformField. rewrite H. reflexivity. Qed.

(** A truthy value that is not an object is left as it is. *)
Lemma transformField_primitive (recur : Value -> Result Value) (v : Value) :
  truthy v = true -> typeof v <> "object" -> typeof v <> "function" ->
  transformField recur v = Ok v.
Proof.
  intros Ht Ho Hf. unfold transformField. rewrite Ht.
  destruct v; cbn in *; congruence.
Qed.





(** The same shapes under the names the code looks for are converted. *)
Lemma detection_of_store_classes :
  transformFirestoreTypes
    (plain [("where", Sample.GeoPoint 59 10);
            ("owner", Sample.DocumentReference "users/u1" "u1");
            ("at", Sample.Timestamp 5)])
  = Ok (plain [("where", plain [("latitude", VNum 59); ("longitude", VNum 10)]);
               ("owner", plain [("id", VStr "u1"); ("path", VStr "users/u1")]);
               ("at", VDate 5000)]).
Proof. reflexivity. Qed.

(** C3.  A stored map with a field named [toDate] that is not a method, as
    in a date range [{fromDate, toDate}], is taken for a timestamp and
    called: deserialization of the whole document throws, where the two
    timestamps inside the map should have become dates. *)
Theorem transformFirestoreTypes_date_range :
  transformFirestoreTypes Sample.booking
  = Throw (newTypeError "obj[key].toDate is not a function") /\
  transformFirestoreTypes
    (plain [("fromDate", Sample.Timestamp 10); ("toDate", Sample.Timestamp 20)])
  = Ok (plain [("fromDate", VDate 10000); ("toDate", VDate 20000)]).
Proof. split; reflexivity. Qed.

(** A map with a field named [constructor] is misread as well. *)
Lemma transformFirestoreTypes_constructor_field :
  transformFirestoreTypes (plain [("spec", plain [("constructor", VNull)])])
  = Throw (newTypeError "Cannot read properties of null (reading 'name')") /\
  transformFirestoreTypes
    (plain [("spec", plain [("constructor", plain [("name", VStr "GeoPoint")])])])
  = Ok (plain [("spec", plain [("latitude", VUndefined); ("longitude", VUndefined)])]).
Proof. split; reflexivity. Qed.

(** On documents that hold store values, maps and primitives only, the
    walk does what C3 describes. *)
Lemma transformFirestoreTypes_example :
  transformFirestoreTypes
    (plain [("gone", VNull); ("zero", VNum 0); ("n", VNum 3); ("s", VStr "x");
            ("at", Sample.Timestamp 5);
            ("nested", plain [("where", Sample.GeoPoint 1 2); ("none", VUndefined);
                              ("list", array [Sample.Timestamp 1; VStr "y"])])])
  = Ok (plain [("gone", VNull); ("zero", VNum 0); ("n", VNum 3); ("s", VStr "x");
               ("at", VDate 5000);
               ("nested", plain [("where", plain [("latitude", VNum 1);
                                                   ("longitude", VNum 2)]);
                                 ("none", VUndefined);
                                 ("list", array [VDate 1000; VStr "y"])])]).
Proof. reflexivity. Qed.

(** ** Hydration *)

Section HydrationProperties.

Variable plainToClass : EntityConstructor -> list (string * Value) -> Entity.
Variable ToString : Field -> string.

Lemma attachSubCollection_fields (this : Repository) (tran : option Transaction)
  (entity : Entity) (subCol : SubCollectionMetadata) :
  e_fields (attachSubCollection ToString this tran entity subCol)
  = setProp (propertyKey subCol)
      (FRepository (attachedRepository tran (pathWithSubCol ToString this entity subCol)))
      (e_fields entity).
Proof. destruct tran; reflexivity. Qed.

Lemma getField_attach_eq (this : Repository) (tran : option Transaction)
  (entity : Entity) (subCol : SubCollectionMetadata) :
  getField (attachSubCollection ToString this tran entity subCol) (propertyKey subCol)
  = FRepository (attachedRepository tran (pathWithSubCol ToString this entity subCol)).
Proof.
  unfold getField. rewrite attachSubCollection_fields, lookup_setProp_eq. reflexivity.
Qed.

Lemma getField_attach_ne (this : Repository) (tran : option Transaction)
  (entity : Entity) (subCol : SubCollectionMetadata) (k : string) :
  k <> propertyKey subCol ->
  getField (attachSubCollection ToString this tran entity subCol) k = getField entity k.
Proof.
  intros H. unfold getField.
  rewrite attachSubCollection_fields, lookup_setProp_ne by exact H. reflexivity.
Qed.

(** Fields that no sub-collection is attached to keep their value. *)
Lemma getField_fold_attach_notin (this : Repository) (tran : option Transaction)
  (subCols : list SubCollectionMetadata) (entity : Entity) (k : string) :
  ~ In k (map propertyKey subCols) ->
  getField (fold_left (attachSubCollection ToString this tran) subCols entity) k = getField entity k.
Proof.
  revert entity. induction subCols as [|a rest IH]; intros entity Hnin; [reflexivity|].
  cbn [fold_left]. rewrite IH by (intros Hin; apply Hnin; right; exact Hin).
  apply getField_attach_ne. intros ->. apply Hnin. left. reflexivity.
Qed.

Lemma getField_fold_attach_in (this : Repository) (tran : option Transaction)
  (subCols : list SubCollectionMetadata) (entity : Entity) (subCol : SubCollectionMetadata) :
  NoDup (map propertyKey subCols) ->
  ~ In "id" (map propertyKey subCols) ->
  In subCol subCols ->
  getField (fold_left (attachSubCollection ToString this tran) subCols entity) (propertyKey subCol)
  = FRepository (attachedRepository tran (pathWithSubCol ToString this entity subCol)).
Proof.
  revert entity. induction subCols as [|a rest IH]; intros entity Hnd Hid Hin;
    [contradiction|].
  cbn [map] in Hnd, Hid. inversion Hnd as [|? ? Hnin Hnd']; subst.
  cbn [fold_left]. destruct Hin as [->|Hin].
  - rewrite getField_fold_attach_notin by exact Hnin. apply getField_attach_eq.
  - rewrite IH; [|exact Hnd'|intros H; apply Hid; right; exact H|exact Hin].
    unfold pathWithSubCol. rewrite getField_attach_ne; [reflexivity|].
    intros H. apply Hid. left. symmetry. exact H.
Qed.

(** C7.  Let the sub-collections of the repository's collection have
    pairwise different property keys, none of them [id].  After
    [initializeSubCollections] on an entity whose [id] is the string
    [parentId], for every sub-collection the field named by its
    [propertyKey] holds the repository asked for the path
    [<path>/<parentId>/<name>]: asked of the transaction when one was passed,
    of the standalone factory otherwise.  So does every entity that
    [extractTFromDocSnap] returns with [parentId] as its [id]. *)
Theorem initializeSubCollections_attaches (this : Repository)
  (tran : option Transaction) (parentId : string) :
  (forall s, ToString (FValue (VStr s)) = s) ->
  NoDup (map propertyKey (subCollections (colMetadata this))) ->
  ~ In "id" (map propertyKey (subCollections (colMetadata this))) ->
  (forall entity subCol,
      getField entity "id" = FValue (VStr parentId) ->
      In subCol (subCollections (colMetadata this)) ->
      getField (initializeSubCollections ToString this entity tran) (propertyKey subCol)
      = FRepository
          (match tran with
           | Some t =>
               TransactionGetRepository t
                 (path this ++ "/" ++ parentId ++ "/" ++ subCol_name subCol)
           | None =>
               GetRepository (path this ++ "/" ++ parentId ++ "/" ++ subCol_name subCol)
           end)) /\
  (forall doc entity subCol,
      extractTFromDocSnap plainToClass ToString this doc tran = Ok (Some entity) ->
      getField entity "id" = FValue (VStr parentId) ->
      In subCol (subCollections (colMetadata this)) ->
      getField entity (propertyKey subCol)
      = FRepository
          (match tran with
           | Some t =>
               TransactionGetRepository t
                 (path this ++ "/" ++ parentId ++ "/" ++ subCol_name subCol)
           | None =>
               GetRepository (path this ++ "/" ++ parentId ++ "/" ++ subCol_name subCol)
           end)).
Proof.
  intros HS Hnd Hid.
  assert (G : forall entity subCol,
             getField entity "id" = FValue (VStr parentId) ->
             In subCol (subCollections (colMetadata this)) ->
             getField (initializeSubCollections ToString this entity tran)
               (propertyKey subCol)
             = FRepository
                 (attachedRepository tran
                    (path this ++ "/" ++ parentId ++ "/" ++ subCol_name subCol))).
  { intros entity subCol Hparent Hin. unfold initializeSubCollections.
    rewrite getField_fold_attach_in by assumption.
    unfold pathWithSubCol. rewrite Hparent, HS. reflexivity. }
  split.
  - intros entity subCol Hparent Hin. rewrite (G entity subCol Hparent Hin).
    destruct tran; reflexivity.
  - intros doc entity subCol H Hparent Hin. unfold extractTFromDocSnap in H.
    destruct (doc_exists doc); cbn in H; [|discriminate].
    destruct (transformFirestoreTypes (doc_data doc)) as [data|]; [|discriminate].
    inversion H as [He]; clear H.
    rewrite <- He in Hparent. unfold initializeSubCollections in Hparent.
    rewrite getField_fold_attach_notin in Hparent by exact Hid.
    rewrite (G _ subCol Hparent Hin). destruct tran; reflexivity.
Qed.

(** The field holds what the last sub-collection under its key attached. *)
Lemma initializeSubCollections_same_key (this : Repository) (entity : Entity)
  (tran : option Transaction) (first last : SubCollectionMetadata) :
  subCollections (colMetadata this) = [first; last] ->
  propertyKey first = propertyKey last ->
  propertyKey last <> "id" ->
  getField (initializeSubCollections ToString this entity tran) (propertyKey first)
  = FRepository (attachedRepository tran (pathWithSubCol ToString this entity last)).
Proof.
  intros Hs Hk Hid. unfold initializeSubCollections. rewrite Hs. cbn [fold_left].
  rewrite Hk, getField_attach_eq. unfold pathWithSubCol.
  rewrite getField_attach_ne; [reflexivity|].
  rewrite Hk. intros H. apply Hid. symmetry. exact H.
Qed.

(** C5.  A snapshot of a document that does not exist is hydrated to
    [null], without an exception, whatever the transaction; so [findById]
    yields [null] for an identifier the collection holds no document
    under. *)
Theorem extractTFromDocSnap_missing (this : Repository) :
  (forall doc tran, doc_exists doc = false -> extractTFromDocSnap plainToClass ToString this doc tran = Ok None) /\
  (forall docs id, lookup id docs = None ->
                   findById plainToClass ToString this docs id = Ok None).
Proof.
  split.
  - intros doc tran H. unfold extractTFromDocSnap. rewrite H. reflexivity.
  - intros docs id H. unfold findById, getDoc. rewrite H. reflexivity.
Qed.

(** What hydration returns for a document that exists: the entity is
    made of [id] and the deserialized data, and then given its
    sub-collections. *)
Lemma extractTFromDocSnap_exists (this : Repository) (doc : DocumentSnapshot)
  (tran : option Transaction) (data : Value) :
  doc_exists doc = true ->
  transformFirestoreTypes (doc_data doc) = Ok data ->
  extractTFromDocSnap plainToClass ToString this doc tran
  = Ok (Some (initializeSubCollections ToString this
                (plainToClass (entityConstructor (colMetadata this))
                   (objectAssign [("id", VStr (doc_id doc))] (ownProperties data)))
                tran)).
Proof.
  intros He Hd. unfold extractTFromDocSnap. rewrite He, Hd. reflexivity.
Qed.

(** Let [plainToClass] carry the [id] property over to the instance and
    let no sub-collection be attached under [id].  If the stored data of a
    document has no field named [id], the entity it is hydrated into has the
    document identifier as its [id]. *)
Theorem extractTFromDocSnap_id (this : Repository) (doc : DocumentSnapshot)
  (tran : option Transaction) (entity : Entity) :
  (forall cls o, lookup "id" (e_fields (plainToClass cls o))
                 = option_map FValue (lookup "id" o)) ->
  ~ In "id" (map propertyKey (subCollections (colMetadata this))) ->
  lookup "id" (ownProperties (doc_data doc)) = None ->
  extractTFromDocSnap plainToClass ToString this doc tran = Ok (Some entity) ->
  getField entity "id" = FValue (VStr (doc_id doc)).
Proof.
  intros Hp Hsub Hdata H. unfold extractTFromDocSnap in H.
  destruct (doc_exists doc); cbn in H; [|discriminate].
  destruct (transformFirestoreTypes (doc_data doc)) as [data|] eqn:Hd; [|discriminate].
  inversion H; subst; clear H.
  unfold initializeSubCollections.
  rewrite getField_fold_attach_notin by exact Hsub.
  unfold getField. rewrite Hp.
  rewrite lookup_objectAssign_notin.
  - reflexivity.
  - apply lookup_None_iff in Hdata.
    rewrite <- (transformFirestoreTypes_keys _ _ Hd) in Hdata. exact Hdata.
Qed.

(** A stored field named [id] takes the place of the identifier. *)
Lemma extractTFromDocSnap_stored_id (this : Repository) (doc : DocumentSnapshot)
  (tran : option Transaction) (entity : Entity) (data : Value) (stored : Value) :
  (forall cls o, lookup "id" (e_fields (plainToClass cls o))
                 = option_map FValue (lookup "id" o)) ->
  ~ In "id" (map propertyKey (subCollections (colMetadata this))) ->
  transformFirestoreTypes (doc_data doc) = Ok data ->
  NoDup (keys (ownProperties data)) ->
  lookup "id" (ownProperties data) = Some stored ->
  extractTFromDocSnap plainToClass ToString this doc tran = Ok (Some entity) ->
  getField entity "id" = FValue stored.
Proof.
  intros Hp Hsub Hd Hnd Hl H. unfold extractTFromDocSnap in H.
  destruct (doc_exists doc); cbn in H; [|discriminate].
  rewrite Hd in H. inversion H; subst; clear H.
  unfold initializeSubCollections.
  rewrite getField_fold_attach_notin by exact Hsub.
  unfold getField. rewrite Hp.
  rewrite (lookup_objectAssign_in _ _ _ _ Hnd Hl). reflexivity.
Qed.

End HydrationProperties.

Lemma plainToClass_default_id (cls : EntityConstructor) (o : list (string * Value)) :
  lookup "id" (e_fields (plainToClass_default cls o)) = option_map FValue (lookup "id" o).
Proof.
  unfold plainToClass_default. cbn [e_fields].
  induction o as [|[k v] o IH]; [reflexivity|].
  cbn [map lookup fst snd]. destruct (String.eqb "id" k); [reflexivity|exact IH].
Qed.

Lemma ToString_default_string (s : string) : ToString_default (FValue (VStr s)) = s.
Proof. reflexivity. Qed.

Lemma initializeSubCollections_attaches_witness :
  getField (initializeSubCollections ToString_default Sample.posts
              {| e_class := Some Sample.Post;
                 e_fields := [("id", FValue (VStr "p1")); ("title", FValue (VStr "Hello"))] |}
              None)
           "comments"
  = FRepository (GetRepository "posts/p1/comments") /\
  exists entity,
    extractTFromDocSnap plainToClass_default ToString_default Sample.posts Sample.hello
      (Some Sample.tx) = Ok (Some entity) /\
    getField entity "id" = FValue (VStr "p1") /\
    getField entity "comments"
    = FRepository (TransactionGetRepository Sample.tx "posts/p1/comments").
Proof.
  assert (Hnd : NoDup (map propertyKey (subCollections (colMetadata Sample.posts)))).
  { cbn. repeat constructor. intros []. }
  assert (Hid : ~ In "id" (map propertyKey (subCollections (colMetadata Sample.posts)))).
  { cbn. intros [H|[]]. discriminate. }
  split.
  - refine (proj1 (initializeSubCollections_attaches plainToClass_default ToString_default
                     Sample.posts None "p1" ToString_default_string Hnd Hid)
              _ Sample.comments _ _).
    + reflexivity.
    + left. reflexivity.
  - eexists. split; [reflexivity|]. split; [reflexivity|].
    refine (proj2 (initializeSubCollections_attaches plainToClass_default ToString_default
                     Sample.posts (Some Sample.tx) "p1" ToString_default_string Hnd Hid)
              Sample.hello _ Sample.comments eq_refl eq_refl _).
    left. reflexivity.
Defined.

Lemma extractTFromDocSnap_missing_witness :
  extractTFromDocSnap plainToClass_default ToString_default Sample.users Sample.missing None
  = Ok None /\
  findById plainToClass_default ToString_default Sample.users
    [("u1", doc_data Sample.ann)] "missing" = Ok None.
Proof.
  pose proof (extractTFromDocSnap_missing plainToClass_default ToString_default Sample.users)
    as [H1 H2].
  split.
  - apply H1. reflexivity.
  - apply H2. reflexivity.
Defined.

Lemma extractTFromDocSnap_id_witness :
  extractTFromDocSnap plainToClass_default ToString_default Sample.users Sample.ann None
  = Ok (Some {| e_class := Some Sample.User;
                e_fields := [("id", FValue (VStr "u1")); ("name", FValue (VStr "Ann"));
                             ("createdAt", FValue (VDate 5000))] |}) /\
  getField {| e_class := Some Sample.User;
              e_fields := [("id", FValue (VStr "u1")); ("name", FValue (VStr "Ann"));
                           ("createdAt", FValue (VDate 5000))] |} "id"
  = FValue (VStr (doc_id Sample.ann)).
Proof.
  split; [reflexivity|].
  apply (extractTFromDocSnap_id plainToClass_default ToString_default Sample.users
           Sample.ann None _ plainToClass_default_id).
  - cbn. intros [].
  - reflexivity.
  - reflexivity.
Defined.

(** C1.  The entity is to carry the document identifier as its [id], and
    the code writes [id: doc.id], but it spreads the stored data after it.
    The document [u2] stores a field named [id]: hydration succeeds and the
    entity's [id] is the stored value ["legacy-7"], not the document
    identifier. *)
Lemma extractTFromDocSnap_id_overridden :
  exists entity,
    extractTFromDocSnap plainToClass_default ToString_default Sample.users Sample.bob None
    = Ok (Some entity) /\
    getField entity "id" = FValue (VStr "legacy-7") /\
    getField entity "id" <> FValue (VStr (doc_id Sample.bob)).
Proof.
  eexists. split; [reflexivity|]. split; [reflexivity|]. discriminate.
Qed.

(** Hydration of the sample post, inside a transaction. *)
Lemma extractTFromDocSnap_post :
  extractTFromDocSnap plainToClass_default ToString_default Sample.posts Sample.hello
    (Some Sample.tx)
  = Ok (Some {| e_class := Some Sample.Post;
                e_fields := [("id", FValue (VStr "p1")); ("title", FValue (VStr "Hello"));
                             ("comments",
                              FRepository
                                (TransactionGetRepository Sample.tx "posts/p1/comments"))] |}).
Proof. reflexivity. Qed.

(** * Further properties *)

(** ** Deserialization *)

(** Induction on a value through the own properties of objects. *)
Lemma Value_own_ind (P : Value -> Prop) :
  (forall v, (forall own proto, v <> VObj own proto) -> P v) ->
  (forall own proto, Forall (fun kv => P (snd kv)) own -> P (VObj own proto)) ->
  forall v, P v.
Proof.
  intros Hother Hobj. fix IH 1.
  intros [ | | b | n | s | ms | f r | own proto];
    try (apply Hother; intros; discriminate).
  apply Hobj. revert own. fix IHown 1.
  intros [|[k x] rest]; constructor; [apply IH | apply IHown].
Qed.

Lemma forEachKey_map (f : Value -> Result Value) (g : Value -> Value)
  (kvs : list (string * Value)) :
  Forall (fun kv => f (snd kv) = Ok (g (snd kv))) kvs ->
  forEachKey f kvs = Ok (map (fun kv => (fst kv, g (snd kv))) kvs).
Proof.
  induction 1 as [|[k v] rest Hv _ Hrest]; cbn; [reflexivity|].
  cbn in Hv. rewrite Hv, Hrest. reflexivity.
Qed.

Lemma transformField_not_object (recur : Value -> Result Value) (v : Value) :
  truthy v = false \/ typeof v <> "object" -> transformField recur v = Ok v.
Proof.
  intros [H|H]; [apply transformField_falsy; exact H|].
  unfold transformField. destruct (truthy v) eqn:E; [|reflexivity].
  destruct v; cbn in *; congruence.
Qed.

Lemma transformField_storeData (v : Value) :
  storeData v = true ->
  transformField transformFirestoreTypes v = Ok (deserialized v).
Proof.
  induction v as [v Hv | own proto IH] using Value_own_ind.
  - intros _. destruct v;
      try (apply transformField_not_object; cbn; auto; right; discriminate).
    + reflexivity.
    + exfalso. eapply Hv. reflexivity.
  - cbn [storeData deserialized]. intros Hs. unfold transformField, callMethod, member.
    cbn [truthy negb typeof hasProperty getProp].
    replace (String.eqb "object" "object") with true by reflexivity. cbn [andb].
    destruct (lookup "toDate" own) as [x|] eqn:Etd; [discriminate|].
    destruct (lookup "toDate" proto) as [m|] eqn:Etp.
    + destruct m; try discriminate. reflexivity.
    + destruct (lookup "constructor" own) as [x|] eqn:Eco; [discriminate|].
      destruct (lookup "constructor" proto) as [c|] eqn:Ecp; [|discriminate].
      destruct c as [ | | | | | |fname r|]; try discriminate.
      cbn [bind Result_Monad getProp].
      replace (String.eqb "name" "name") with true by reflexivity.
      cbn [strictEqStr].
      destruct (String.eqb fname "GeoPoint").
      { destruct (lookup "latitude" own); destruct (lookup "latitude" proto);
          destruct (lookup "longitude" own); destruct (lookup "longitude" proto);
          reflexivity. }
      destruct (String.eqb fname "DocumentReference").
      { destruct (lookup "id" own); destruct (lookup "id" proto);
          destruct (lookup "path" own); destruct (lookup "path" proto);
          reflexivity. }
      rewrite transformFirestoreTypes_object.
      rewrite (forEachKey_map (transformField transformFirestoreTypes) deserialized own).
      { reflexivity. }
      rewrite forallb_forall in Hs. rewrite Forall_forall in IH |- *.
      intros kv Hin. apply IH; [exact Hin|]. apply Hs. exact Hin.
Qed.

(** X1.  On a document whose every field is data that cannot be misread,
    deserialization does not throw and returns the object with the same
    class members and each field deserialized: a value with a [toDate]
    method as its date, a GeoPoint and a DocumentReference as plain
    structures, any other object field by field, every other value as it
    was. *)
Theorem transformFirestoreTypes_succeeds (own proto : list (string * Value)) :
  forallb (fun kv => storeData (snd kv)) own = true ->
  transformFirestoreTypes (VObj own proto)
  = Ok (VObj (map (fun kv => (fst kv, deserialized (snd kv))) own) proto).
Proof.
  intros Hs. rewrite transformFirestoreTypes_object.
  rewrite (forEachKey_map (transformField transformFirestoreTypes) deserialized own).
  - reflexivity.
  - rewrite forallb_forall in Hs. rewrite Forall_forall.
    intros kv Hin. apply transformField_storeData. apply Hs. exact Hin.
Qed.

Lemma transformFirestoreTypes_succeeds_witness :
  transformFirestoreTypes
    (VObj [("name", VStr "Ann"); ("createdAt", Sample.Timestamp 5);
           ("home", plain [("where", Sample.GeoPoint 59 10); ("since", VNull);
                           ("owner", Sample.DocumentReference "users/u1" "u1")])]
          ObjectPrototype)
  = Ok (VObj [("name", VStr "Ann"); ("createdAt", VDate 5000);
              ("home", plain [("where", plain [("latitude", VNum 59);
                                               ("longitude", VNum 10)]);
                              ("since", VNull);
                              ("owner", plain [("id", VStr "u1");
                                               ("path", VStr "users/u1")])])]
             ObjectPrototype).
Proof.
  apply (transformFirestoreTypes_succeeds
           [("name", VStr "Ann"); ("createdAt", Sample.Timestamp 5);
            ("home", plain [("where", Sample.GeoPoint 59 10); ("since", VNull);
                            ("owner", Sample.DocumentReference "users/u1" "u1")])]
           ObjectPrototype).
  reflexivity.
Defined.

(** X2.  Deserialization keeps the shape of the object: when it succeeds,
    the result has the same own keys in the same order and the same members
    besides them; no field is added, dropped or renamed. *)
Theorem transformFirestoreTypes_shape (own proto : list (string * Value)) (d : Value) :
  transformFirestoreTypes (VObj own proto) = Ok d ->
  exists own', d = VObj own' proto /\ keys own' = keys own.
Proof.
  rewrite transformFirestoreTypes_object. cbn.
  destruct (forEachKey _ own) as [own'|] eqn:E; [|discriminate].
  intros H. inversion H; subst. exists own'. split; [reflexivity|].
  eapply forEachKey_keys. exact E.
Qed.

Lemma transformFirestoreTypes_shape_witness :
  exists own',
    plain [("name", VStr "Ann"); ("createdAt", VDate 5000)] = VObj own' ObjectPrototype /\
    keys own' = ["name"; "createdAt"].
Proof.
  apply (transformFirestoreTypes_shape
           [("name", VStr "Ann"); ("createdAt", Sample.Timestamp 5)] ObjectPrototype).
  reflexivity.
Defined.

(** X3.  A field that holds no object is never touched: [null],
    [undefined], booleans, numbers (zero included) and strings (the empty
    one included) are in the result as they were stored. *)
Theorem transformFirestoreTypes_keeps_primitives (own proto : list (string * Value))
  (d : Value) (k : string) (v : Value) :
  transformFirestoreTypes (VObj own proto) = Ok d ->
  lookup k own = Some v ->
  truthy v = false \/ typeof v <> "object" ->
  lookup k (ownProperties d) = Some v.
Proof.
  rewrite transformFirestoreTypes_object. cbn.
  destruct (forEachKey _ own) as [own'|] eqn:E; [|discriminate].
  intros H Hl Hv. inversion H; subst. cbn.
  destruct (forEachKey_lookup _ _ _ _ _ E Hl) as (v' & Hv' & Hl').
  rewrite transformField_not_object in Hv' by exact Hv.
  inversion Hv'; subst. exact Hl'.
Qed.

Lemma transformFirestoreTypes_keeps_primitives_witness :
  lookup "visits"
    (ownProperties (plain [("visits", VNum 0); ("createdAt", VDate 5000)]))
  = Some (VNum 0).
Proof.
  apply (transformFirestoreTypes_keeps_primitives
           [("visits", VNum 0); ("createdAt", Sample.Timestamp 5)] ObjectPrototype
           _ "visits" (VNum 0)).
  - reflexivity.
  - reflexivity.
  - left. reflexivity.
Defined.

Lemma transformField_composite (v : Value) :
  isComposite v = true ->
  transformField transformFirestoreTypes v = transformFirestoreTypes v.
Proof.
  unfold isComposite. intros H.
  apply andb_prop in H. destruct H as [H Hc].
  apply andb_prop in H. destruct H as [H Hd].
  apply andb_prop in H. destruct H as [Ht Ho].
  apply negb_true_iff in Hd.
  unfold transformField. rewrite Ht, Ho, Hd. cbn [negb andb].
  destruct (getProp v "constructor") as [c|]; [|discriminate].
  cbn [bind Result_Monad].
  destruct (getProp c "name") as [n|]; [|discriminate].
  apply andb_prop in Hc. destruct Hc as [Hg Hr].
  apply negb_true_iff in Hg. apply negb_true_iff in Hr.
  rewrite Hg, Hr. reflexivity.
Qed.

(** X4.  Deserialization reaches every depth.  Follow a path of keys from
    the document through nested composites (maps and arrays) to a value
    [v]: in the result, the same path leads to what the callback makes of
    [v], so a timestamp, geo point or reference is converted wherever it
    sits. *)
Theorem transformFirestoreTypes_deep (ks : list string) :
  forall (d d' v : Value),
    ks <> [] ->
    transformFirestoreTypes d = Ok d' ->
    walkPath ks d = Some v ->
    exists v', transformField transformFirestoreTypes v = Ok v' /\
               lookupPath ks d' = Some v'.
Proof.
  induction ks as [|k rest IH]; intros d d' v Hne HT Hw; [contradiction|].
  destruct d as [ | | | | | | |own proto]; try discriminate.
  cbn [walkPath] in Hw.
  destruct (lookup k own) as [child|] eqn:Hl; [|discriminate].
  rewrite transformFirestoreTypes_object in HT. cbn in HT.
  destruct (forEachKey _ own) as [own'|] eqn:E; [|discriminate].
  inversion HT; subst; clear HT.
  destruct (forEachKey_lookup _ _ _ _ _ E Hl) as (child' & Hc' & Hl').
  cbn [lookupPath]. rewrite Hl'.
  destruct rest as [|k2 rest].
  - inversion Hw; subst. exists child'. auto.
  - destruct (isComposite child) eqn:Hcomp; [|discriminate].
    rewrite (transformField_composite child Hcomp) in Hc'.
    apply (IH child child' v); [discriminate|exact Hc'|exact Hw].
Qed.

Lemma transformFirestoreTypes_deep_witness :
  exists v',
    transformField transformFirestoreTypes (Sample.Timestamp 7) = Ok v' /\
    lookupPath ["trip"; "stops"; "1"; "at"]
      (plain [("trip",
               plain [("stops",
                       array [VNull;
                              plain [("at", VDate 7000);
                                     ("where", plain [("latitude", VNum 1);
                                                      ("longitude", VNum 2)])]])])])
    = Some v'.
Proof.
  apply (transformFirestoreTypes_deep ["trip"; "stops"; "1"; "at"]
           (plain [("trip",
                    plain [("stops",
                            array [VNull;
                                   plain [("at", Sample.Timestamp 7);
                                          ("where", Sample.GeoPoint 1 2)]])])])).
  - discriminate.
  - reflexivity.
  - reflexivity.
Defined.

(** ** Hydration *)

Section FurtherHydration.

Variable plainToClass : EntityConstructor -> list (string * Value) -> Entity.
Variable ToString : Field -> string.


Lemma extractTFromColSnap_cons (this : Repository) (d : DocumentSnapshot)
  (rest : list DocumentSnapshot) (tran : option Transaction) :
  extractTFromColSnap plainToClass ToString this (d :: rest) tran
  = (e <- extractTFromDocSnap plainToClass ToString this d tran ;;
     es <- extractTFromColSnap plainToClass ToString this rest tran ;;
     Ok (e :: es)).
Proof. reflexivity. Qed.

(** X6.  Hydration of a query snapshot succeeds exactly when every document
    of it hydrates, and then gives the entities one for one, in the order of
    the documents. *)
Theorem extractTFromColSnap_all (this : Repository) (docs : list DocumentSnapshot)
  (tran : option Transaction) (entities : list (option Entity)) :
  extractTFromColSnap plainToClass ToString this docs tran = Ok entities
  <-> Forall2 (fun d e => extractTFromDocSnap plainToClass ToString this d tran = Ok e)
        docs entities.
Proof.
  revert entities. induction docs as [|d rest IH]; intros entities.
  - cbn. split.
    + intros H. inversion H. constructor.
    + intros H. inversion H. reflexivity.
  - rewrite extractTFromColSnap_cons. split.
    + intros H.
      destruct (extractTFromDocSnap plainToClass ToString this d tran) as [e|] eqn:Ed;
        [|discriminate].
      cbn in H.
      destruct (extractTFromColSnap plainToClass ToString this rest tran) as [es|] eqn:Er;
        [|discriminate].
      inversion H; subst. constructor; [exact Ed|]. apply IH. reflexivity.
    + intros H. inversion H as [|? e ? es Hd Hrest]; subst.
      rewrite Hd. cbn. apply IH in Hrest. rewrite Hrest. reflexivity.
Qed.

(** X7.  Hydration of a query snapshot throws exactly when some document
    fails to hydrate after all documents before it did, and then it throws
    the exception of that first failing document: one document that cannot
    be deserialized fails the whole result. *)
Theorem extractTFromColSnap_first_failure (this : Repository)
  (docs : list DocumentSnapshot) (tran : option Transaction) (err : JsError) :
  extractTFromColSnap plainToClass ToString this docs tran = Throw err
  <-> exists before d after,
        docs = (before ++ d :: after)%list /\
        Forall (fun d' => exists e,
                  extractTFromDocSnap plainToClass ToString this d' tran = Ok e) before /\
        extractTFromDocSnap plainToClass ToString this d tran = Throw err.
Proof.
  induction docs as [|d rest IH].
  - cbn. split; [discriminate|].
    intros (before & d & after & H & _). destruct before; discriminate.
  - rewrite extractTFromColSnap_cons. split.
    + intros H.
      destruct (extractTFromDocSnap plainToClass ToString this d tran) as [e|e0] eqn:Ed.
      * cbn in H.
        destruct (extractTFromColSnap plainToClass ToString this rest tran) as [es|e1];
          [discriminate|].
        inversion H; subst.
        destruct (proj1 IH eq_refl) as (before & d0 & after & Hdocs & Hall & Hd0).
        exists (d :: before), d0, after. subst rest. split; [reflexivity|].
        split; [constructor; eauto|exact Hd0].
      * cbn in H. inversion H; subst.
        exists [], d, rest. split; [reflexivity|]. split; [constructor|exact Ed].
    + intros (before & d0 & after & Hdocs & Hall & Hd0).
      destruct before as [|b before]; cbn in Hdocs; inversion Hdocs; subst.
      * rewrite Hd0. reflexivity.
      * inversion Hall as [|? ? [e He] Hall']; subst. rewrite He. cbn.
        assert (Hr : extractTFromColSnap plainToClass ToString this
                       (before ++ d0 :: after) tran = Throw err).
        { apply IH. exists before, d0, after. auto. }
        rewrite Hr. reflexivity.
Qed.

Lemma e_class_fold_attach (this : Repository) (tran : option Transaction)
  (subCols : list SubCollectionMetadata) (entity : Entity) :
  e_class (fold_left (attachSubCollection ToString this tran) subCols entity)
  = e_class entity.
Proof.
  revert entity. induction subCols as [|a rest IH]; intros entity; [reflexivity|].
  cbn [fold_left]. rewrite IH. destruct tran; reflexivity.
Qed.

(** X8.  Attaching the sub-collections keeps the class of the entity and
    every field that no sub-collection names as its property key. *)
Theorem initializeSubCollections_frame (this : Repository) (entity : Entity)
  (tran : option Transaction) :
  e_class (initializeSubCollections ToString this entity tran) = e_class entity /\
  forall k, ~ In k (map propertyKey (subCollections (colMetadata this))) ->
            getField (initializeSubCollections ToString this entity tran) k
            = getField entity k.
Proof.
  unfold initializeSubCollections. split.
  - apply e_class_fold_attach.
  - intros k Hk. apply getField_fold_attach_notin. exact Hk.
Qed.

Lemma getField_fold_attach_some (this : Repository) (tran : option Transaction)
  (subCols : list SubCollectionMetadata) (entity : Entity) (subCol : SubCollectionMetadata) :
  In subCol subCols ->
  exists p, getField (fold_left (attachSubCollection ToString this tran) subCols entity)
              (propertyKey subCol)
            = FRepository (attachedRepository tran p).
Proof.
  revert entity. induction subCols as [|a rest IH] using rev_ind; intros entity Hin;
    [contradiction|].
  rewrite fold_left_app. cbn [fold_left].
  destruct (String.eqb_spec (propertyKey subCol) (propertyKey a)) as [Heq|Hne].
  - rewrite Heq, getField_attach_eq. eauto.
  - rewrite getField_attach_ne by exact Hne.
    apply IH. apply in_app_or in Hin. destruct Hin as [Hin|[->|[]]];
      [exact Hin|contradiction].
Qed.

(** X9.  Whatever the metadata, after [initializeSubCollections] the field
    under the property key of any sub-collection holds a repository of the
    scope of the operation: one of the given transaction inside a
    transaction, a standalone one outside; never document data and never a
    repository of the other kind. *)
Theorem initializeSubCollections_scope (this : Repository) (entity : Entity)
  (tran : option Transaction) (subCol : SubCollectionMetadata) :
  In subCol (subCollections (colMetadata this)) ->
  exists p,
    getField (initializeSubCollections ToString this entity tran) (propertyKey subCol)
    = FRepository (match tran with
                   | Some t => TransactionGetRepository t p
                   | None => GetRepository p
                   end).
Proof.
  intros Hin. unfold initializeSubCollections.
  destruct (getField_fold_attach_some this tran _ entity subCol Hin) as [p Hp].
  exists p. rewrite Hp. destruct tran; reflexivity.
Qed.

(** X10.  When sub-collections share a property key, the last of them
    wins: the field holds the repository of the sub-collection after which
    none of the same key is declared.  Its path is built from the [id] of
    the entity, as long as no earlier sub-collection was attached under
    [id]. *)
Theorem initializeSubCollections_last_wins (this : Repository) (entity : Entity)
  (tran : option Transaction) (before after : list SubCollectionMetadata)
  (subCol : SubCollectionMetadata) :
  subCollections (colMetadata this) = (before ++ subCol :: after)%list ->
  (forall later, In later after -> propertyKey later <> propertyKey subCol) ->
  ~ In "id" (map propertyKey before) ->
  getField (initializeSubCollections ToString this entity tran) (propertyKey subCol)
  = FRepository
      (attachedRepository tran
         (path this ++ "/" ++ ToString (getField entity "id") ++ "/"
            ++ subCol_name subCol)).
Proof.
  intros Hs Hafter Hid. unfold initializeSubCollections. rewrite Hs.
  rewrite fold_left_app. cbn [fold_left].
  rewrite getField_fold_attach_notin.
  - rewrite getField_attach_eq. unfold pathWithSubCol.
    rewrite getField_fold_attach_notin by exact Hid. reflexivity.
  - intros Hin. apply in_map_iff in Hin. destruct Hin as (later & Hk & Hin).
    apply (Hafter later Hin). exact Hk.
Qed.

End FurtherHydration.

Section HydratedEntities.

Variable plainToClass : EntityConstructor -> list (string * Value) -> Entity.
Variable ToString : Field -> string.

(** The entity hydration returns for a document that exists. *)
Lemma extractTFromDocSnap_inv (this : Repository) (doc : DocumentSnapshot)
  (tran : option Transaction) (entity : Entity) :
  extractTFromDocSnap plainToClass ToString this doc tran = Ok (Some entity) ->
  exists data,
    transformFirestoreTypes (doc_data doc) = Ok data /\
    entity = initializeSubCollections ToString this
               (plainToClass (entityConstructor (colMetadata this))
                  (objectAssign [("id", VStr (doc_id doc))] (ownProperties data)))
               tran.
Proof.
  unfold extractTFromDocSnap. destruct (doc_exists doc); cbn; [|discriminate].
  destruct (transformFirestoreTypes (doc_data doc)) as [data|]; cbn; [|discriminate].
  intros H. inversion H. eauto.
Qed.

(** X11.  Hydration carries the document over.  Let the keys of the stored
    data be pairwise different and let [plainToClass] carry the property [k]
    over.  If no sub-collection is attached under [k], the entity holds under
    [k] the deserialized value of the stored field [k]. *)
Theorem extractTFromDocSnap_field (this : Repository) (doc : DocumentSnapshot)
  (tran : option Transaction) (entity : Entity) (data : Value) (k : string) (v : Value) :
  (forall cls o, lookup k (e_fields (plainToClass cls o))
                 = option_map FValue (lookup k o)) ->
  NoDup (keys (ownProperties (doc_data doc))) ->
  ~ In k (map propertyKey (subCollections (colMetadata this))) ->
  extractTFromDocSnap plainToClass ToString this doc tran = Ok (Some entity) ->
  transformFirestoreTypes (doc_data doc) = Ok data ->
  lookup k (ownProperties data) = Some v ->
  getField entity k = FValue v.
Proof.
  intros Hp Hnd Hk H Hd Hl.
  destruct (extractTFromDocSnap_inv this doc tran entity H) as (data' & Hd' & ->).
  rewrite Hd in Hd'. inversion Hd'; subst data'.
  unfold initializeSubCollections.
  rewrite getField_fold_attach_notin by exact Hk.
  unfold getField. rewrite Hp.
  rewrite (lookup_objectAssign_in (ownProperties data) _ k v); [reflexivity| |exact Hl].
  rewrite (transformFirestoreTypes_keys _ _ Hd). exact Hnd.
Qed.

(** X12.  For a document whose stored data has no field named [id], the
    sub-collection repositories of the hydrated entity are bound to
    [<path>/<doc.id>/<name>], given that [plainToClass] carries [id] over,
    that the property keys of the sub-collections are pairwise different and
    none of them is [id]. *)
Theorem extractTFromDocSnap_subcollection_path (this : Repository)
  (doc : DocumentSnapshot) (tran : option Transaction) (entity : Entity)
  (subCol : SubCollectionMetadata) :
  (forall s, ToString (FValue (VStr s)) = s) ->
  (forall cls o, lookup "id" (e_fields (plainToClass cls o))
                 = option_map FValue (lookup "id" o)) ->
  NoDup (map propertyKey (subCollections (colMetadata this))) ->
  ~ In "id" (map propertyKey (subCollections (colMetadata this))) ->
  lookup "id" (ownProperties (doc_data doc)) = None ->
  extractTFromDocSnap plainToClass ToString this doc tran = Ok (Some entity) ->
  In subCol (subCollections (colMetadata this)) ->
  getField entity (propertyKey subCol)
  = FRepository
      (attachedRepository tran
         (path this ++ "/" ++ doc_id doc ++ "/" ++ subCol_name subCol)).
Proof.
  intros HS Hp Hnd Hid Hdata H Hin.
  destruct (extractTFromDocSnap_inv this doc tran entity H) as (data & Hd & ->).
  unfold initializeSubCollections.
  rewrite (getField_fold_attach_in ToString) by assumption.
  unfold pathWithSubCol, getField. rewrite Hp.
  rewrite lookup_objectAssign_notin.
  - cbn. rewrite HS. reflexivity.
  - apply lookup_None_iff in Hdata.
    rewrite <- (transformFirestoreTypes_keys _ _ Hd) in Hdata. exact Hdata.
Qed.

(** X13.  A stored field named [id] that holds a string takes the place of
    the document identifier, in the entity and in the paths of its
    sub-collection repositories alike: they are bound to
    [<path>/<stored id>/<name>]. *)
Theorem extractTFromDocSnap_stored_id_path (this : Repository)
  (doc : DocumentSnapshot) (tran : option Transaction) (entity : Entity)
  (stored : string) (subCol : SubCollectionMetadata) :
  (forall s, ToString (FValue (VStr s)) = s) ->
  (forall cls o, lookup "id" (e_fields (plainToClass cls o))
                 = option_map FValue (lookup "id" o)) ->
  NoDup (map propertyKey (subCollections (colMetadata this))) ->
  ~ In "id" (map propertyKey (subCollections (colMetadata this))) ->
  NoDup (keys (ownProperties (doc_data doc))) ->
  lookup "id" (ownProperties (doc_data doc)) = Some (VStr stored) ->
  extractTFromDocSnap plainToClass ToString this doc tran = Ok (Some entity) ->
  In subCol (subCollections (colMetadata this)) ->
  getField entity "id" = FValue (VStr stored) /\
  getField entity (propertyKey subCol)
  = FRepository
      (attachedRepository tran
         (path this ++ "/" ++ stored ++ "/" ++ subCol_name subCol)).
Proof.
  intros HS Hp Hnd Hid Hkeys Hstored H Hin.
  destruct (extractTFromDocSnap_inv this doc tran entity H) as (data & Hd & ->).
  assert (Hl : lookup "id" (ownProperties data) = Some (VStr stored)).
  { destruct (doc_data doc) as [ | | | | s | | |own proto] eqn:Edata;
      try discriminate.
    - cbn in Hd. inversion Hd; subst. exact Hstored.
    - rewrite transformFirestoreTypes_object in Hd. cbn in Hd.
      destruct (forEachKey _ own) as [own'|] eqn:E; [|discriminate].
      inversion Hd; subst. cbn in Hstored |- *.
      destruct (forEachKey_lookup _ _ _ _ _ E Hstored) as (v' & Hv' & Hl').
      rewrite transformField_not_object in Hv' by (right; discriminate).
      inversion Hv'; subst. exact Hl'. }
  assert (Hidv : lookup "id"
                   (e_fields (plainToClass (entityConstructor (colMetadata this))
                                (objectAssign [("id", VStr (doc_id doc))]
                                   (ownProperties data))))
                 = Some (FValue (VStr stored))).
  { rewrite Hp. rewrite (lookup_objectAssign_in (ownProperties data) _ "id" (VStr stored));
      [reflexivity| |exact Hl].
    rewrite (transformFirestoreTypes_keys _ _ Hd). exact Hkeys. }
  unfold initializeSubCollections. split.
  - rewrite getField_fold_attach_notin by exact Hid.
    unfold getField. rewrite Hidv. reflexivity.
  - rewrite (getField_fold_attach_in ToString) by assumption.
    unfold pathWithSubCol, getField. rewrite Hidv, HS. reflexivity.
Qed.

End HydratedEntities.


Lemma initializeSubCollections_frame_witness :
  e_class (initializeSubCollections ToString_default Sample.posts Fixture.p1 None)
  = Some Sample.Post /\
  getField (initializeSubCollections ToString_default Sample.posts Fixture.p1 None) "title"
  = FValue (VStr "Hello").
Proof.
  destruct (initializeSubCollections_frame ToString_default Sample.posts Fixture.p1 None)
    as [Hc Hf].
  split; [exact Hc|]. apply Hf. cbn. intros [H|[]]. discriminate.
Defined.

Lemma initializeSubCollections_scope_witness :
  exists p,
    getField (initializeSubCollections ToString_default Fixture.threads Fixture.p1
                (Some Sample.tx)) "comments"
    = FRepository (TransactionGetRepository Sample.tx p).
Proof.
  apply (initializeSubCollections_scope ToString_default Fixture.threads Fixture.p1
           (Some Sample.tx) Sample.comments).
  left. reflexivity.
Defined.

Lemma initializeSubCollections_last_wins_witness :
  getField (initializeSubCollections ToString_default Fixture.threads Fixture.p1 None)
    "comments"
  = FRepository (GetRepository "threads/p1/replies").
Proof.
  apply (initializeSubCollections_last_wins ToString_default Fixture.threads Fixture.p1
           None [Sample.comments] [] Fixture.replies).
  - reflexivity.
  - intros later [].
  - cbn. intros [H|[]]. discriminate.
Defined.

Lemma extractTFromDocSnap_field_witness :
  exists entity,
    extractTFromDocSnap plainToClass_default ToString_default Sample.users Sample.ann None
    = Ok (Some entity) /\
    getField entity "createdAt" = FValue (VDate 5000).
Proof.
  eexists. split; [reflexivity|].
  refine (extractTFromDocSnap_field plainToClass_default ToString_default Sample.users
            Sample.ann None _ _ "createdAt" (VDate 5000) _ _ _ eq_refl eq_refl eq_refl).
  - intros cls o. unfold plainToClass_default. cbn [e_fields].
    induction o as [|[k v] o IH]; [reflexivity|].
    cbn [map lookup fst snd]. destruct (String.eqb "createdAt" k); [reflexivity|exact IH].
  - cbn. repeat constructor; cbn; intuition discriminate.
  - cbn. intros [].
Defined.

Lemma extractTFromDocSnap_subcollection_path_witness :
  exists entity,
    extractTFromDocSnap plainToClass_default ToString_default Sample.posts Sample.hello None
    = Ok (Some entity) /\
    getField entity "comments" = FRepository (GetRepository "posts/p1/comments").
Proof.
  eexists. split; [reflexivity|].
  refine (extractTFromDocSnap_subcollection_path plainToClass_default ToString_default
            Sample.posts Sample.hello None _ Sample.comments
            ToString_default_string plainToClass_default_id _ _ eq_refl eq_refl _).
  - cbn. repeat constructor. intros [].
  - cbn. intros [H|[]]. discriminate.
  - left. reflexivity.
Defined.

Lemma extractTFromDocSnap_stored_id_path_witness :
  exists entity,
    extractTFromDocSnap plainToClass_default ToString_default Sample.posts
      Fixture.legacyPost None = Ok (Some entity) /\
    getField entity "id" = FValue (VStr "legacy-9") /\
    getField entity "comments" = FRepository (GetRepository "posts/legacy-9/comments").
Proof.
  eexists. split; [reflexivity|].
  refine (extractTFromDocSnap_stored_id_path plainToClass_default ToString_default
            Sample.posts Fixture.legacyPost None _ "legacy-9" Sample.comments
            ToString_default_string plainToClass_default_id _ _ _ eq_refl eq_refl _).
  - cbn. repeat constructor. intros [].
  - cbn. intros [H|[]]. discriminate.
  - cbn. repeat constructor; cbn; intuition discriminate.
  - left. reflexivity.
Defined.

(** ** validate *)

Lemma validate_catch_throws {A : Type} (error : JsError) (a : A) :
  validate_catch error <> Ok a.
Proof.
  unfold validate_catch. destruct (code error) as [c|]; [|discriminate].
  destruct (String.eqb c "MODULE_NOT_FOUND"); discriminate.
Qed.

(** X14.  [validate] is fulfilled with a list of violations only when the
    collaborator was imported and its promise was fulfilled with that very
    list: no failure is ever turned into a list, in particular not into the
    empty list that means valid. *)
Theorem validate_fulfilled_iff (importClassValidator : Result ClassValidator)
  (this : Repository) (item : Entity) (violations : list ValidationError) :
  validate importClassValidator this item = Ok violations
  <-> exists classValidator,
        importClassValidator = Ok classValidator /\
        cv_validate classValidator (toEntityInstance this item)
        = Returned (Ok violations).
Proof.
  unfold validate. split.
  - destruct importClassValidator as [cv|error].
    + destruct (cv_validate cv (toEntityInstance this item)) as [error|settled] eqn:E.
      * intros H. exfalso. exact (validate_catch_throws error violations H).
      * intros ->. eauto.
    + intros H. exfalso. exact (validate_catch_throws error violations H).
  - intros (cv & -> & E). rewrite E. reflexivity.
Qed.




(** ** Construction *)

(** X16.  With the store initialized, construction looks the key up in the
    metadata storage once, and asks the store client for a collection
    reference only when metadata was found, then once and for the effective
    path.  It allocates nothing and leaves the metadata storage as it was. *)
Theorem constructor_effects (key : PathOrConstructor) (w : World) (fs : Firestore) :
  firestoreRef (storage w) = Some fs ->
  heap (snd (constructor key w)) = heap w /\
  storage (snd (constructor key w)) = storage w /\
  trace (snd (constructor key w))
  = (trace w ++
       CallGetCollection key ::
       match getCollection (storage w) key with
       | Some cm => [CallCollection (match key with
                                     | Path s => s
                                     | Constructor _ => name cm
                                     end)]
       | None => []
       end)%list.
Proof.
  intros H. unfold constructor. cbn. rewrite H. cbn.
  destruct (getCollection (storage w) key); cbn.
  - rewrite <- app_assoc. auto.
  - auto.
Qed.

Lemma constructor_effects_witness :
  heap (snd (constructor (Constructor Sample.Post) Sample.initialized)) = [] /\
  storage (snd (constructor (Constructor Sample.Post) Sample.initialized))
  = storage Sample.initialized /\
  trace (snd (constructor (Constructor Sample.Post) Sample.initialized))
  = [CallGetCollection (Constructor Sample.Post); CallCollection "posts"].
Proof.
  apply (constructor_effects (Constructor Sample.Post) Sample.initialized Sample.db).
  reflexivity.
Defined.

(** ** Failure of deserialization *)

Lemma forEachKey_fails (f : Value -> Result Value) (kvs : list (string * Value))
  (k : string) (v : Value) (e : JsError) :
  In (k, v) kvs -> f v = Throw e -> exists e', forEachKey f kvs = Throw e'.
Proof.
  induction kvs as [|[k0 v0] rest IH]; intros Hin Hf; [contradiction|].
  cbn. destruct (f v0) as [v0'|e0] eqn:E0; [|eauto].
  destruct Hin as [Heq|Hin].
  - inversion Heq; subst. congruence.
  - destruct (IH Hin Hf) as [e' He']. rewrite He'. eauto.
Qed.

(** X17.  One field is enough to fail a document: when any field holds an
    object that has a member named [toDate] which is not a function, a
    stored map with a key [toDate] for one, deserialization of the whole
    document throws. *)
Theorem transformFirestoreTypes_toDate_member (own proto : list (string * Value))
  (k : string) (v m : Value) :
  In (k, v) own ->
  truthy v = true -> typeof v = "object" ->
  hasProperty "toDate" v = true ->
  getProp v "toDate" = Ok m -> (forall f r, m <> VFun f r) ->
  exists e, transformFirestoreTypes (VObj own proto) = Throw e.
Proof.
  intros Hin Ht Ho Hh Hg Hm.
  assert (Hv : transformField transformFirestoreTypes v
               = Throw (newTypeError "obj[key].toDate is not a function")).
  { unfold transformField, callMethod. rewrite Ht, Ho, Hh. cbn. rewrite Hg.
    destruct m; try reflexivity. exfalso. eapply Hm. reflexivity. }
  rewrite transformFirestoreTypes_object.
  destruct (forEachKey_fails _ own k v _ Hin Hv) as [e He].
  rewrite He. cbn. eauto.
Qed.

Lemma transformFirestoreTypes_toDate_member_witness :
  exists e,
    transformFirestoreTypes
      (VObj [("guest", VStr "Ann");
             ("stay", plain [("fromDate", VStr "2020-01-01"); ("toDate", VStr "2020-01-05")])]
            ObjectPrototype)
    = Throw e.
Proof.
  apply (transformFirestoreTypes_toDate_member
           [("guest", VStr "Ann");
            ("stay", plain [("fromDate", VStr "2020-01-01"); ("toDate", VStr "2020-01-05")])]
           ObjectPrototype "stay"
           (plain [("fromDate", VStr "2020-01-01"); ("toDate", VStr "2020-01-05")])
           (VStr "2020-01-05")).
  - right. left. reflexivity.
  - reflexivity.
  - reflexivity.
  - reflexivity.
  - reflexivity.
  - intros f r. discriminate.
Defined.
